(** * Spectral Indices Calculator: a shallow embedding of [main_code.py]

    The development has two parts, as the program has:

    - [IndexMath]: the three band-arithmetic helpers [calculate_ndvi],
      [calculate_ndwi] and [calculate_ndbi], over IEEE binary64 numbers
      (Rocq's primitive floats), with NumPy's element-wise operations and
      broadcasting written out;
    - [Gui]: the handlers of [MainWindow], as computations in a small
      state-and-exception monad over the window's attributes, a heap of
      GeoDataFrame objects and a log of what the user saw and which
      library calls were made. *)

From Stdlib Require Import ZArith Floats.
From stdpp Require Import base list strings pretty.

Local Open Scope Z_scope.

(** ** Python exceptions and results *)

Inductive exn_class :=
| ValueError | AttributeError | IndexError | UnboundLocalError | TypeError
| RasterioIOError | OtherError.

Record exn := Exn { exn_cls : exn_class; exn_msg : string }.

Global Instance exn_class_eq_dec : EqDecision exn_class.
Proof. solve_decision. Defined.

(** The outcome of evaluating a Python expression: a value, or a raised
    exception. *)
Inductive res (A : Type) :=
| Ok (a : A)
| Raise (e : exn).
Arguments Ok {A} a.
Arguments Raise {A} e.

Definition res_bind {A B} (r : res A) (k : A -> res B) : res B :=
  match r with
  | Ok a => k a
  | Raise e => Raise e
  end.

(** ** NumPy arrays *)

Inductive dtype :=
| uint8 | int8 | uint16 | int16 | uint32 | int32 | uint64 | int64
| float32 | float64.

(** A 2-D array, row by row. An integer array carries exact integers, a
    floating array binary64 values (every float32 value is one). *)
Inductive ndarray :=
| IntArr (dt : dtype) (rows : list (list Z))
| FloatArr (dt : dtype) (rows : list (list float)).

Definition arr_dtype (a : ndarray) : dtype :=
  match a with IntArr dt _ => dt | FloatArr dt _ => dt end.

Module IndexMath.

(** Conversion of an integer to binary64, rounding to nearest even: what
    [astype(float)] does to every element of an integer array. *)
Definition Z2float (z : Z) : float :=
  SF2Prim (binary_normalize prec emax z 0 false).

(** [a.astype(float)]: the rows as binary64. *)
Definition astype_float (a : ndarray) : list (list float) :=
  match a with
  | IntArr _ rows => map (map Z2float) rows
  | FloatArr _ rows => rows
  end.

Section Elementwise.
Context {A B C : Type}.

(** The shape of a row-by-row array: number of rows, and the length of
    the first row. An array without rows is taken to have no columns
    either. *)
Definition shape (a : list (list A)) : nat * nat :=
  (length a, match a with [] => 0%nat | r :: _ => length r end).

(** [has_shape r c a]: [a] is a rectangular [r] by [c] array. *)
Definition has_shape (r c : nat) (a : list (list A)) : Prop :=
  length a = r /\ Forall (fun row => length row = c) a.

(** NumPy's broadcasting rule for one axis: equal lengths, or one of
    them 1. *)
Definition bdim (m n : nat) : option nat :=
  if (m =? n)%nat then Some m
  else if (m =? 1)%nat then Some n
  else if (n =? 1)%nat then Some m
  else None.

(** Stretch an axis of length 1 to length [n]; any other axis is left as
    it is. *)
Definition stretch {X} (n : nat) (l : list X) : list X :=
  match l with
  | [x] => replicate n x
  | _ => l
  end.

End Elementwise.

(** A binary element-wise operation on 2-D arrays, with broadcasting;
    shapes that do not broadcast raise ValueError. *)
Definition elementwise2 {A B C} (f : A -> B -> C)
    (a : list (list A)) (b : list (list B)) : res (list (list C)) :=
  match bdim (fst (shape a)) (fst (shape b)),
        bdim (snd (shape a)) (snd (shape b)) with
  | Some r, Some c =>
      Ok (zip_with (zip_with f)
            (stretch r (map (stretch c) a))
            (stretch r (map (stretch c) b)))
  | _, _ =>
      Raise (Exn ValueError "operands could not be broadcast together")
  end.

(** [a == k] for a scalar [k]. *)
Definition eq_scalar (a : list (list float)) (k : float) : list (list bool) :=
  map (map (fun x => PrimFloat.eqb x k)) a.

(** [np.where(cond, k, x)] for a scalar [k]. *)
Definition np_where (cond : list (list bool)) (k : float)
    (x : list (list float)) : res (list (list float)) :=
  elementwise2 (fun (c : bool) v => if c then k else v) cond x.

Definition np_add := elementwise2 PrimFloat.add.
Definition np_sub := elementwise2 PrimFloat.sub.
Definition np_div := elementwise2 PrimFloat.div.

Notation "x <- c ;; k" := (res_bind c (fun x => k))
  (at level 100, c at next level, right associativity).

(** [calculate_ndvi] (lines 20-23):
    [np.where((nir + red) == 0, 0, (nir - red) / (nir + red))]. *)
Definition calculate_ndvi (red nir : ndarray) : res ndarray :=
  let red := astype_float red in
  let nir := astype_float nir in
  s <- np_add nir red ;;
  let cond := eq_scalar s 0%float in
  num <- np_sub nir red ;;
  den <- np_add nir red ;;
  q <- np_div num den ;;
  out <- np_where cond 0%float q ;;
  Ok (FloatArr float64 out).

(** [calculate_ndwi] (lines 25-28):
    [np.where((green + nir) == 0, 0, (green - nir) / (green + nir))]. *)
Definition calculate_ndwi (green nir : ndarray) : res ndarray :=
  let green := astype_float green in
  let nir := astype_float nir in
  s <- np_add green nir ;;
  let cond := eq_scalar s 0%float in
  num <- np_sub green nir ;;
  den <- np_add green nir ;;
  q <- np_div num den ;;
  out <- np_where cond 0%float q ;;
  Ok (FloatArr float64 out).

(** [calculate_ndbi] (lines 30-33):
    [np.where((swir + nir) == 0, 0, (swir - nir) / (swir + nir))]. *)
Definition calculate_ndbi (swir nir : ndarray) : res ndarray :=
  let swir := astype_float swir in
  let nir := astype_float nir in
  s <- np_add swir nir ;;
  let cond := eq_scalar s 0%float in
  num <- np_sub swir nir ;;
  den <- np_add swir nir ;;
  q <- np_div num den ;;
  out <- np_where cond 0%float q ;;
  Ok (FloatArr float64 out).

(** The normalized difference of the specification, for one pixel:
    [(a - b) / (a + b)], and 0 where [a + b] is zero. *)
Definition normalized_difference (a b : float) : float :=
  if PrimFloat.eqb (a + b) 0 then 0%float else ((a - b) / (a + b))%float.

(** The element of a 2-D array at row [i], column [j]. *)
Definition cell {A} (a : list (list A)) (i j : nat) : option A :=
  a !! i ≫= fun row => row !! j.

End IndexMath.

(** ** The main window and its handlers *)

Module Gui.

Import IndexMath.

(** *** Data handled through the geospatial libraries *)

Definition coord : Type := float * float.

Inductive Geometry :=
| Point (p : coord)
| LineString (pts : list coord)
| Polygon (shell : list coord).

Definition CRS : Type := string.

(** An affine geotransform, by its six coefficients. *)
Definition Affine : Type := float * float * float * float * float * float.

Record Feature := {
  geometry : Geometry;
  attributes : list (string * string)
}.

Record GeoDataFrame := {
  gdf_crs : option CRS;
  gdf_rows : list Feature
}.

(** An opened raster: [rasterio]'s [DatasetReader]. *)
Record DatasetReader := {
  ds_crs : option CRS;
  ds_transform : Affine;
  ds_bands : list ndarray
}.

Record Connection := {
  conn_host : string;
  conn_dbname : string;
  conn_user : string;
  conn_password : string
}.

(** The keyword arguments of [rasterio.open(path, "w", ...)]. *)
Record Profile := {
  p_driver : string;
  p_height : nat;
  p_width : nat;
  p_count : Z;
  p_dtype : dtype;
  p_crs : option CRS;
  p_transform : Affine
}.

(** What matplotlib is asked to draw. *)
Inductive figure :=
| FrameFigure (g : GeoDataFrame) (title : string)
| ImageFigure (a : ndarray) (cmap title : string).

(** GeoDataFrames are Python objects with identity: the window's
    attributes hold references into a heap of them. *)
Definition ref : Type := nat.

(** The value of [self.last_displayed_data]. *)
Inductive pyobj :=
| ObjArray (a : ndarray)
| ObjFrame (r : ref).

(** The attributes [__init__] gives the window. *)
Record MainWindow := {
  raster_path : option string;
  shapefile_path : option string;
  raster_data : option DatasetReader;
  gdf : option ref;
  db_connection : option Connection;
  last_displayed_data : option pyobj;
  last_displayed_type : option string
}.

(** The state [__init__] leaves. *)
Definition init : MainWindow := {|
  raster_path := None;
  shapefile_path := None;
  raster_data := None;
  gdf := None;
  db_connection := None;
  last_displayed_data := None;
  last_displayed_type := None
|}.

(** *** What the outside observes *)

(** The calls into the libraries and the platform. Reading an attribute
    of an object ([.crs], [.empty], [.geometry], [.shape]) is not among
    them. *)
Inductive call :=
| CRasterioOpen (path : string)
| CReadFile (path : string)
| CRead (band : Z)
| CCopy
| CBuffer (distance : float)
| CToCrs (crs : option CRS)
| CMask (shapes : list Geometry)
| CRender (f : figure)
| CCentroid
| CFoliumSave (path : string)
| CWebOpen (path : string)
| CConnect (host dbname user : string)
| CReadPostgis (query : string)
| CToFile (path driver : string)
| CCreate (path : string) (p : Profile)
| CWrite (a : ndarray) (band : Z).

(** What a run leaves behind, in order: the dialogs shown, the questions
    asked, the lines printed and the calls made. *)
Inductive event :=
| Critical (title text : string)
| Information (title text : string)
| Asked (title : string)
| Printed (text : string)
| Called (c : call).

(** The libraries and the platform the handlers call into. *)
Record Lib := {
  rasterio_open : string -> res DatasetReader;
  gpd_read_file : string -> res GeoDataFrame;
  geometry_buffer : Geometry -> float -> res Geometry;
  is_valid : Geometry -> bool;
  to_crs : GeoDataFrame -> option CRS -> res GeoDataFrame;
  is_geographic : CRS -> bool;
  rasterio_mask : DatasetReader -> list Geometry -> res (list ndarray * Affine);
  matplotlib_render : figure -> res unit;
  centroid : Geometry -> res coord;
  union_centroid : list Geometry -> res coord;
  folium_save : coord -> GeoDataFrame -> string -> res unit;
  webbrowser_open : string -> res unit;
  map_path_beside : string -> string;
  expanduser : string -> string;
  psycopg2_connect : string -> string -> string -> string -> res Connection;
  read_postgis : string -> Connection -> res GeoDataFrame;
  to_file : GeoDataFrame -> string -> string -> res unit;
  rasterio_create : string -> Profile -> res unit;
  dst_write : string -> Profile -> ndarray -> Z -> res unit
}.

(** *** The monad of the handlers *)

Record World := {
  self : MainWindow;
  heap : list GeoDataFrame;
  log : list event
}.

Definition M (A : Type) : Type := World -> res A * World.

Definition ret {A} (a : A) : M A := fun w => (Ok a, w).

Definition bind {A B} (m : M A) (k : A -> M B) : M B :=
  fun w =>
    match m w with
    | (Ok a, w') => k a w'
    | (Raise e, w') => (Raise e, w')
    end.

Definition raise {A} (e : exn) : M A := fun w => (Raise e, w).

Definition lift {A} (r : res A) : M A := fun w => (r, w).

(** [try: body except Exception as e: handler e]. *)
Definition try_except (body : M unit) (handler : exn -> M unit) : M unit :=
  fun w =>
    match body w with
    | (Ok a, w') => (Ok a, w')
    | (Raise e, w') => handler e w'
    end.

(** [try: body except cls: handler]: any other exception propagates. *)
Definition try_except_only (cls : exn_class) (body : M unit)
    (handler : exn -> M unit) : M unit :=
  fun w =>
    match body w with
    | (Ok a, w') => (Ok a, w')
    | (Raise e, w') =>
        if decide (exn_cls e = cls) then handler e w' else (Raise e, w')
    end.

Declare Scope gui_scope.
Delimit Scope gui_scope with gui.
Notation "x <- c ;; k" := (bind c (fun x => k))
  (at level 100, c at next level, right associativity) : gui_scope.
Notation "c ;;; k" := (bind c (fun _ => k))
  (at level 100, right associativity) : gui_scope.
Local Open Scope gui_scope.

Definition get_self : M MainWindow := fun w => (Ok (self w), w).

Definition emit (e : event) : M unit :=
  fun w => (Ok tt, {| self := self w; heap := heap w; log := log w ++ [e] |}).

(** A call into a library: logged, then its outcome. *)
Definition called {A} (c : call) (r : res A) : M A :=
  emit (Called c) ;;; lift r.

Definition critical (title text : string) : M unit := emit (Critical title text).
Definition information (title text : string) : M unit := emit (Information title text).
Definition ask (title : string) : M unit := emit (Asked title).

(** A new GeoDataFrame object. *)
Definition alloc (g : GeoDataFrame) : M ref :=
  fun w => (Ok (length (heap w)),
            {| self := self w; heap := heap w ++ [g]; log := log w |}).

Definition deref (r : ref) : M GeoDataFrame :=
  fun w =>
    match heap w !! r with
    | Some g => (Ok g, w)
    | None => (Raise (Exn OtherError "dangling reference"), w)
    end.

(** In-place update of the object [r] refers to. *)
Definition store (r : ref) (g : GeoDataFrame) : M unit :=
  fun w => (Ok tt, {| self := self w; heap := <[r := g]> (heap w); log := log w |}).

(** Attribute assignments [self.x = v]. *)
Definition set_raster_path (v : option string) (s : MainWindow) : MainWindow :=
  {| raster_path := v; shapefile_path := shapefile_path s;
     raster_data := raster_data s; gdf := gdf s;
     db_connection := db_connection s;
     last_displayed_data := last_displayed_data s;
     last_displayed_type := last_displayed_type s |}.

Definition set_shapefile_path (v : option string) (s : MainWindow) : MainWindow :=
  {| raster_path := raster_path s; shapefile_path := v;
     raster_data := raster_data s; gdf := gdf s;
     db_connection := db_connection s;
     last_displayed_data := last_displayed_data s;
     last_displayed_type := last_displayed_type s |}.

Definition set_raster_data (v : option DatasetReader) (s : MainWindow) : MainWindow :=
  {| raster_path := raster_path s; shapefile_path := shapefile_path s;
     raster_data := v; gdf := gdf s;
     db_connection := db_connection s;
     last_displayed_data := last_displayed_data s;
     last_displayed_type := last_displayed_type s |}.

Definition set_gdf (v : option ref) (s : MainWindow) : MainWindow :=
  {| raster_path := raster_path s; shapefile_path := shapefile_path s;
     raster_data := raster_data s; gdf := v;
     db_connection := db_connection s;
     last_displayed_data := last_displayed_data s;
     last_displayed_type := last_displayed_type s |}.

Definition set_db_connection (v : option Connection) (s : MainWindow) : MainWindow :=
  {| raster_path := raster_path s; shapefile_path := shapefile_path s;
     raster_data := raster_data s; gdf := gdf s;
     db_connection := v;
     last_displayed_data := last_displayed_data s;
     last_displayed_type := last_displayed_type s |}.

Definition set_last_displayed_data (v : option pyobj) (s : MainWindow) : MainWindow :=
  {| raster_path := raster_path s; shapefile_path := shapefile_path s;
     raster_data := raster_data s; gdf := gdf s;
     db_connection := db_connection s;
     last_displayed_data := v;
     last_displayed_type := last_displayed_type s |}.

Definition set_last_displayed_type (v : option string) (s : MainWindow) : MainWindow :=
  {| raster_path := raster_path s; shapefile_path := shapefile_path s;
     raster_data := raster_data s; gdf := gdf s;
     db_connection := db_connection s;
     last_displayed_data := last_displayed_data s;
     last_displayed_type := v |}.

Definition assign (f : MainWindow -> MainWindow) : M unit :=
  fun w => (Ok tt, {| self := f (self w); heap := heap w; log := log w |}).

(** *** Python's truth values and attribute access *)

(** [bool(x)] of a string attribute that may be [None]. *)
Definition truthy_str (o : option string) : bool :=
  match o with
  | None => false
  | Some s => bool_decide (s <> "")
  end.

(** [bool(x)] of an attribute holding [None] or an object that defines
    neither [__bool__] nor [__len__] (a [DatasetReader], a psycopg2
    connection): [None] is false, the object is true. *)
Definition truthy_obj {A} (o : option A) : bool :=
  match o with
  | None => false
  | Some _ => true
  end.

(** [bool(self.gdf)]. [None] is false. A GeoDataFrame is a pandas
    DataFrame, whose [__bool__] raises ValueError: pandas refuses to give
    a frame a truth value. *)
Definition truth_gdf (o : option ref) : M bool :=
  match o with
  | None => ret false
  | Some _ =>
      raise (Exn ValueError
        "The truth value of a GeoDataFrame is ambiguous. Use a.empty, a.bool(), a.item(), a.any() or a.all().")
  end.

(** [hasattr(self, 'gdf')]: [__init__] assigns [self.gdf], and nothing
    deletes it. *)
Definition hasattr_gdf (s : MainWindow) : bool := true.

(** [self.gdf.<attr>]: the frame [self.gdf] refers to; on [None] the
    attribute access raises AttributeError. *)
Definition gdf_object (attr : string) : M GeoDataFrame :=
  s <- get_self ;;
  match gdf s with
  | None =>
      raise (Exn AttributeError
        ("'NoneType' object has no attribute '" ++ attr ++ "'"))
  | Some r => deref r
  end.

(** [self.raster_data.<attr>]. *)
Definition raster_object (attr : string) : M DatasetReader :=
  s <- get_self ;;
  match raster_data s with
  | None =>
      raise (Exn AttributeError
        ("'NoneType' object has no attribute '" ++ attr ++ "'"))
  | Some rd => ret rd
  end.

(** [DataFrame.empty]: no rows (a frame read from a file or a table has
    its geometry column, so the other axis is never empty). *)
Definition frame_empty (g : GeoDataFrame) : bool :=
  match gdf_rows g with [] => true | _ => false end.

Definition geometries (g : GeoDataFrame) : list Geometry :=
  map geometry (gdf_rows g).

(** [frame['geometry'] = column], row by row. *)
Definition with_geometry (g : GeoDataFrame) (column : list Geometry) : GeoDataFrame :=
  {| gdf_crs := gdf_crs g;
     gdf_rows := zip_with (fun f geom =>
                   {| geometry := geom; attributes := attributes f |})
                   (gdf_rows g) column |}.

Definition set_crs (g : GeoDataFrame) (crs : CRS) : GeoDataFrame :=
  {| gdf_crs := Some crs; gdf_rows := gdf_rows g |}.

(** [DatasetReader.read(band)]: bands are numbered from 1; any other
    number raises IndexError. *)
Definition ds_read (rd : DatasetReader) (band : Z) : res ndarray :=
  if (1 <=? band) && (band <=? Z.of_nat (length (ds_bands rd))) then
    match ds_bands rd !! Z.to_nat (band - 1) with
    | Some a => Ok a
    | None => Raise (Exn IndexError "band index out of range")
    end
  else Raise (Exn IndexError "band index out of range").

(** [a.shape[0]] and [a.shape[1]]. *)
Definition arr_shape (a : ndarray) : nat * nat :=
  match a with
  | IntArr _ rows => shape rows
  | FloatArr _ rows => shape rows
  end.

(** [xs[0]]. *)
Definition first {A} (xs : list A) : res A :=
  match xs with
  | x :: _ => Ok x
  | [] => Raise (Exn IndexError "index 0 is out of bounds")
  end.

Fixpoint map_res {A B} (f : A -> res B) (l : list A) : res (list B) :=
  match l with
  | [] => Ok []
  | x :: l' =>
      res_bind (f x) (fun y => res_bind (map_res f l') (fun ys => Ok (y :: ys)))
  end.

Section Handlers.

Variable L : Lib.

(** [self.raster_data.read(band)]. *)
Definition read_band (band : Z) : M ndarray :=
  rd <- raster_object "read" ;;
  called (CRead band) (ds_read rd band).

(** [MainWindow.show_image] (lines 355-365). *)
Definition show_image (image_data : ndarray) (title : string) : M unit :=
  let f := ImageFigure image_data "viridis" title in
  called (CRender f) (matplotlib_render L f).

(** [MainWindow.upload_raster] (lines 114-122); [file_name] is what the
    file dialog returns, empty when cancelled. *)
Definition upload_raster (file_name : string) : M unit :=
  ask "Select Raster File" ;;;
  if bool_decide (file_name <> "") then
    try_except_only RasterioIOError
      (rd <- called (CRasterioOpen file_name) (rasterio_open L file_name) ;;
       assign (set_raster_data (Some rd)) ;;;
       assign (set_raster_path (Some file_name)) ;;;
       information "Success" "Raster uploaded successfully!")
      (fun _ => critical "Error" "Invalid raster file.")
  else ret tt.

(** [MainWindow.upload_shapefile] (lines 124-132). *)
Definition upload_shapefile (file_name : string) : M unit :=
  ask "Select Shapefile" ;;;
  if bool_decide (file_name <> "") then
    try_except
      (g <- called (CReadFile file_name) (gpd_read_file L file_name) ;;
       r <- alloc g ;;
       assign (set_gdf (Some r)) ;;;
       assign (set_shapefile_path (Some file_name)) ;;;
       information "Success" "Shapefile uploaded successfully!")
      (fun e => critical "Error" ("Error loading shapefile: " ++ exn_msg e))
  else ret tt.

(** The [try] block of [buffer_tool] (lines 140-153); [distance] and
    [ok] are what [QInputDialog.getDouble] returns. *)
Definition buffer_tool_body (distance : float) (ok : bool) : M unit :=
  ask "Buffer Distance" ;;;
  if negb ok || PrimFloat.leb distance 0 then
    critical "Error" "Invalid buffer distance."
  else
    g <- gdf_object "copy" ;;
    buffered_gdf <- (emit (Called CCopy) ;;; alloc g) ;;
    b <- deref buffered_gdf ;;
    column <- called (CBuffer distance)
                (map_res (fun geom => geometry_buffer L geom distance) (geometries b)) ;;
    store buffered_gdf (with_geometry b column) ;;;
    assign (set_last_displayed_data (Some (ObjFrame buffered_gdf))) ;;;
    assign (set_last_displayed_type (Some "shapefile")) ;;;
    shown <- deref buffered_gdf ;;
    called (CRender (FrameFigure shown "")) (matplotlib_render L (FrameFigure shown "")).

(** [MainWindow.buffer_tool] (lines 134-157): the guard on line 135 is
    evaluated outside the [try]. *)
Definition buffer_tool (distance : float) (ok : bool) : M unit :=
  s <- get_self ;;
  missing <- (if negb (hasattr_gdf s) then ret true
              else g <- gdf_object "empty" ;; ret (frame_empty g)) ;;
  if (missing : bool) then
    critical "Error" "Please upload a shapefile first."
  else
    try_except (buffer_tool_body distance ok)
      (fun e =>
         critical "Error" ("An error occurred: " ++ exn_msg e) ;;;
         emit (Printed ("An error occurred: " ++ exn_msg e))).

(** The [try] block of [clip_raster] (lines 164-175). The transform
    that [mask] returns is bound and not used. *)
Definition clip_raster_body : M unit :=
  g <- gdf_object "crs" ;;
  rd <- raster_object "crs" ;;
  (if bool_decide (gdf_crs g <> ds_crs rd) then
     g' <- called (CToCrs (ds_crs rd)) (to_crs L g (ds_crs rd)) ;;
     r' <- alloc g' ;;
     assign (set_gdf (Some r'))
   else ret tt) ;;;
  g <- gdf_object "geometry" ;;
  let shapes := filter (fun geom => is_valid L geom = true) (geometries g) in
  rd <- raster_object "read" ;;
  out <- called (CMask shapes) (rasterio_mask L rd shapes) ;;
  let '(out_image, out_transform) := out in
  band <- lift (first out_image) ;;
  assign (set_last_displayed_data (Some (ObjArray band))) ;;;
  assign (set_last_displayed_type (Some "raster")) ;;;
  band <- lift (first out_image) ;;
  show_image band "Clipped Raster" ;;;
  information "Success" "Raster clipped successfully!".

(** [MainWindow.clip_raster] (lines 158-177): the guard on line 159 is
    evaluated outside the [try], left operand first. *)
Definition clip_raster : M unit :=
  s <- get_self ;;
  missing <- (if negb (truthy_obj (raster_data s)) then ret true
              else t <- truth_gdf (gdf s) ;; ret (negb t)) ;;
  if (missing : bool) then
    critical "Error" "Please upload raster and shapefile first."
  else
    try_except clip_raster_body
      (fun e => critical "Error" ("Error while clipping raster: " ++ exn_msg e)).

(** The [if]/[elif] chain of [calculate_index] (lines 190-201); [None]
    when no branch binds [index_result]. *)
Definition index_branch (index_type : string)
    (red_band nir_band green_band swir_band : Z) : M (option ndarray) :=
  if String.eqb index_type "NDVI" then
    red <- read_band red_band ;;
    nir <- read_band nir_band ;;
    index_result <- lift (calculate_ndvi red nir) ;;
    ret (Some index_result)
  else if String.eqb index_type "NDWI" then
    green <- read_band green_band ;;
    nir <- read_band nir_band ;;
    index_result <- lift (calculate_ndwi green nir) ;;
    ret (Some index_result)
  else if String.eqb index_type "NDBI" then
    swir <- read_band swir_band ;;
    nir <- read_band nir_band ;;
    index_result <- lift (calculate_ndbi swir nir) ;;
    ret (Some index_result)
  else ret None.

(** The [try] block of [calculate_index] (lines 185-206). The four band
    numbers are what the four [QInputDialog.getInt] return; their [ok]
    flags are dropped. *)
Definition calculate_index_body (index_type : string)
    (red_band nir_band green_band swir_band : Z) : M unit :=
  ask "Red Band" ;;;
  ask "NIR Band" ;;;
  ask "Green Band" ;;;
  ask "SWIR Band" ;;;
  bound <- index_branch index_type red_band nir_band green_band swir_band ;;
  index_result <- match bound with
                  | Some a => ret a
                  | None =>
                      raise (Exn UnboundLocalError
                        "local variable 'index_result' referenced before assignment")
                  end ;;
  assign (set_last_displayed_data (Some (ObjArray index_result))) ;;;
  assign (set_last_displayed_type (Some "raster")) ;;;
  show_image index_result (index_type ++ " Image").

(** [MainWindow.calculate_index] (lines 179-208). *)
Definition calculate_index (index_type : string)
    (red_band nir_band green_band swir_band : Z) : M unit :=
  s <- get_self ;;
  if negb (truthy_obj (raster_data s)) then
    critical "Error" "Please upload a raster first."
  else
    try_except
      (calculate_index_body index_type red_band nir_band green_band swir_band)
      (fun e =>
         critical "Error"
           ("Error calculating " ++ index_type ++ ": " ++ exn_msg e)).

(** [MainWindow.display_raster] (lines 210-235). *)
Definition display_raster (band_index : Z) (ok : bool) : M unit :=
  s <- get_self ;;
  if negb (truthy_obj (raster_data s)) then
    critical "Error" "No raster uploaded."
  else
    try_except
      (ask "Select Band" ;;;
       if negb ok || (band_index <=? 0) then
         critical "Error" "Invalid band number."
       else
         raster_band <- read_band band_index ;;
         assign (set_last_displayed_data (Some (ObjArray raster_band))) ;;;
         assign (set_last_displayed_type (Some "raster")) ;;;
         let f := ImageFigure raster_band "gray"
                    ("Raster Band " ++ pretty band_index) in
         called (CRender f) (matplotlib_render L f))
      (fun e => critical "Error" ("Error displaying raster: " ++ exn_msg e)).

(** [frame[frame.is_valid]]. *)
Definition valid_rows (g : GeoDataFrame) : GeoDataFrame :=
  {| gdf_crs := gdf_crs g;
     gdf_rows := filter (fun f => is_valid L (geometry f) = true) (gdf_rows g) |}.

(** [MainWindow.visualize_shapefile] (lines 237-264). *)
Definition visualize_shapefile : M unit :=
  s <- get_self ;;
  if negb (truthy_str (shapefile_path s)) then
    critical "Error" "No shapefile uploaded."
  else
    try_except
      (let path := default "" (shapefile_path s) in
       shapefile <- called (CReadFile path) (gpd_read_file L path) ;;
       shapefile <- match gdf_crs shapefile with
                    | None => ret (set_crs shapefile "EPSG:4326")
                    | Some crs =>
                        if negb (is_geographic L crs) then
                          called (CToCrs (Some "EPSG:4326"))
                            (to_crs L shapefile (Some "EPSG:4326"))
                        else ret shapefile
                    end ;;
       let shapefile := valid_rows shapefile in
       if frame_empty shapefile then
         critical "Error" "Shapefile contains no valid geometries."
       else
         r <- alloc shapefile ;;
         assign (set_last_displayed_data (Some (ObjFrame r))) ;;;
         assign (set_last_displayed_type (Some "shapefile")) ;;;
         c <- called CCentroid (union_centroid L (geometries shapefile)) ;;
         let map_path := map_path_beside L path in
         called (CFoliumSave map_path) (folium_save L c shapefile map_path) ;;;
         called (CWebOpen map_path) (webbrowser_open L map_path))
      (fun e => critical "Error" ("Error visualizing shapefile: " ++ exn_msg e)).

(** [MainWindow.visualize_shapefile_on_gui] (lines 266-286). *)
Definition visualize_shapefile_on_gui : M unit :=
  s <- get_self ;;
  if negb (truthy_str (shapefile_path s)) then
    critical "Error" "No shapefile uploaded."
  else
    try_except
      (let path := default "" (shapefile_path s) in
       shapefile <- called (CReadFile path) (gpd_read_file L path) ;;
       let f := FrameFigure shapefile "Shapefile Visualization" in
       called (CRender f) (matplotlib_render L f) ;;;
       r <- alloc shapefile ;;
       assign (set_last_displayed_data (Some (ObjFrame r))) ;;;
       assign (set_last_displayed_type (Some "shapefile")))
      (fun e =>
         critical "Error" ("Error visualizing shapefile on GUI: " ++ exn_msg e)).

(** [MainWindow.connect_to_postgis] (lines 288-297). *)
Definition connect_to_postgis (host dbname user password : string) : M unit :=
  try_except
    (ask "Host" ;;;
     ask "Database Name" ;;;
     ask "Username" ;;;
     ask "Password" ;;;
     conn <- called (CConnect host dbname user)
               (psycopg2_connect L host dbname user password) ;;
     assign (set_db_connection (Some conn)) ;;;
     information "Success" "Connected to PostGIS database successfully!")
    (fun e => critical "Error" ("Error connecting to database: " ++ exn_msg e)).

(** [MainWindow.import_and_visualize_from_postgis] (lines 299-323). *)
Definition import_and_visualize_from_postgis (table_name : string) (ok : bool) : M unit :=
  s <- get_self ;;
  match db_connection s with
  | None => critical "Error" "Please connect to the PostGIS database first."
  | Some conn =>
      try_except
        (ask "Table Name" ;;;
         if negb ok || negb (bool_decide (table_name <> "")) then
           critical "Error" "Invalid table name."
         else
           let query := ("SELECT * FROM " ++ table_name)%string in
           g <- called (CReadPostgis query) (read_postgis L query conn) ;;
           r <- alloc g ;;
           assign (set_gdf (Some r)) ;;;
           g <- gdf_object "crs" ;;
           match gdf_crs g with
           | None =>
               r' <- alloc (set_crs g "EPSG:4326") ;;
               assign (set_gdf (Some r'))
           | Some _ => ret tt
           end ;;;
           g <- gdf_object "geometry" ;;
           cs <- called CCentroid (map_res (centroid L) (geometries g)) ;;
           c <- lift (first cs) ;;
           let output_path := expanduser L "~/postgis_visualization.html" in
           called (CFoliumSave output_path) (folium_save L c g output_path) ;;;
           called (CWebOpen output_path) (webbrowser_open L output_path) ;;;
           s <- get_self ;;
           assign (set_last_displayed_data (ObjFrame <$> gdf s)) ;;;
           assign (set_last_displayed_type (Some "shapefile")))
        (fun e =>
           critical "Error"
             ("Error visualizing shapefile from PostGIS: " ++ exn_msg e))
  end.

(** The [try] block of [export_displayed_data] (lines 331-351), for the
    displayed object [data]; [file_path] is what the save dialog
    returns. *)
Definition export_body (data : pyobj) (file_path : string) : M unit :=
  ask "Save File" ;;;
  if negb (bool_decide (file_path <> "")) then
    information "Canceled" "Save operation canceled."
  else
    s <- get_self ;;
    (if bool_decide (last_displayed_type s = Some "shapefile") then
       match data with
       | ObjFrame r =>
           g <- deref r ;;
           called (CToFile file_path "ESRI Shapefile")
             (to_file L g file_path "ESRI Shapefile")
       | ObjArray _ =>
           raise (Exn AttributeError
             "'numpy.ndarray' object has no attribute 'to_file'")
       end
     else if bool_decide (last_displayed_type s = Some "raster") then
       match data with
       | ObjArray a =>
           rd <- raster_object "crs" ;;
           let p := {| p_driver := "GTiff";
                       p_height := fst (arr_shape a);
                       p_width := snd (arr_shape a);
                       p_count := 1;
                       p_dtype := arr_dtype a;
                       p_crs := ds_crs rd;
                       p_transform := ds_transform rd |} in
           called (CCreate file_path p) (rasterio_create L file_path p) ;;;
           called (CWrite a 1) (dst_write L file_path p a 1)
       | ObjFrame _ =>
           raise (Exn AttributeError
             "'GeoDataFrame' object has no attribute 'dtype'")
       end
     else ret tt) ;;;
    information "Success" ("Data exported successfully to " ++ file_path ++ ".").

(** [MainWindow.export_displayed_data] (lines 325-353). *)
Definition export_displayed_data (file_path : string) : M unit :=
  s <- get_self ;;
  match last_displayed_data s with
  | None => critical "Error" "No data available to export."
  | Some data =>
      try_except (export_body data file_path)
        (fun e => critical "Error" ("Error exporting data: " ++ exn_msg e))
  end.

(** The menu actions, with what the user answers to their dialogs. *)
Inductive action :=
| UploadRaster (file_name : string)
| UploadShapefile (file_name : string)
| CalculateIndex (index_type : string) (red_band nir_band green_band swir_band : Z)
| BufferTool (distance : float) (ok : bool)
| ClipRaster
| DisplayRaster (band_index : Z) (ok : bool)
| VisualizeShapefile
| VisualizeShapefileOnGui
| ExportDisplayedData (file_path : string)
| ConnectToPostgis (host dbname user password : string)
| ImportAndVisualizeFromPostgis (table_name : string) (ok : bool).

Definition handle (a : action) : M unit :=
  match a with
  | UploadRaster f => upload_raster f
  | UploadShapefile f => upload_shapefile f
  | CalculateIndex t r n g s => calculate_index t r n g s
  | BufferTool d ok => buffer_tool d ok
  | ClipRaster => clip_raster
  | DisplayRaster b ok => display_raster b ok
  | VisualizeShapefile => visualize_shapefile
  | VisualizeShapefileOnGui => visualize_shapefile_on_gui
  | ExportDisplayedData f => export_displayed_data f
  | ConnectToPostgis h d u p => connect_to_postgis h d u p
  | ImportAndVisualizeFromPostgis t ok => import_and_visualize_from_postgis t ok
  end.

(** The event loop: the actions are handled one at a time, each to
    completion; an exception that leaves a handler ends the session. *)
Fixpoint event_loop (actions : list action) (w : World) : res unit * World :=
  match actions with
  | [] => (Ok tt, w)
  | a :: rest =>
      match handle a w with
      | (Ok _, w') => event_loop rest w'
      | (Raise e, w') => (Raise e, w')
      end
  end.

End Handlers.

End Gui.

(** ** Sample collaborators and sessions, for evaluating the handlers *)

Module Demo.

Import IndexMath Gui.

(** A two-band raster: both bands are [[1,2],[3,0]]. *)
Definition band : ndarray := IntArr uint8 [[1; 2]; [3; 0]].

Definition raster : DatasetReader := {|
  ds_crs := Some "EPSG:32633";
  ds_transform := (10, 0, 500000, 0, -10, 4649776)%float;
  ds_bands := [band; band]
|}.

(** A layer of one point feature. *)
Definition frame : GeoDataFrame := {|
  gdf_crs := Some "EPSG:4326";
  gdf_rows := [ {| geometry := Point (1, 1)%float; attributes := [("name", "a")] |} ]
|}.

Definition connection : Connection := {|
  conn_host := "localhost"; conn_dbname := "gis";
  conn_user := "user"; conn_password := "secret"
|}.

(** A square around the point stands for its buffer. *)
Definition square (p : coord) (d : float) : Geometry :=
  let '(x, y) := p in
  Polygon [(x - d, y - d); (x + d, y - d); (x + d, y + d); (x - d, y + d)]%float.

(** Collaborators that accept what they are given. [valid] decides
    [is_valid]. *)
Definition lib (valid : bool) : Lib := {|
  rasterio_open := fun _ => Ok raster;
  gpd_read_file := fun _ => Ok frame;
  geometry_buffer := fun geom d =>
    match geom with
    | Point p => Ok (square p d)
    | _ => Ok geom
    end;
  is_valid := fun _ => valid;
  to_crs := fun g crs => Ok {| gdf_crs := crs; gdf_rows := gdf_rows g |};
  is_geographic := fun crs => String.eqb crs "EPSG:4326";
  rasterio_mask := fun rd shapes =>
    match shapes with
    | [] => Raise (Exn ValueError "Input shapes do not overlap raster.")
    | _ => Ok (ds_bands rd, (10, 0, 500010, 0, -10, 4649766)%float)
    end;
  matplotlib_render := fun _ => Ok tt;
  centroid := fun geom =>
    match geom with
    | Point p => Ok p
    | _ => Ok (0, 0)%float
    end;
  union_centroid := fun _ => Ok (0, 0)%float;
  folium_save := fun _ _ _ => Ok tt;
  webbrowser_open := fun _ => Ok tt;
  map_path_beside := fun _ => "shapefile_map.html";
  expanduser := fun p => p;
  psycopg2_connect := fun _ _ _ _ => Ok connection;
  read_postgis := fun _ _ => Ok frame;
  to_file := fun _ _ _ => Ok tt;
  rasterio_create := fun _ _ => Ok tt;
  dst_write := fun _ _ _ _ => Ok tt
|}.

(** The session right after start-up. *)
Definition fresh : World := {| self := init; heap := []; log := [] |}.

(** A session with the raster and the layer loaded. *)
Definition loaded : World := {|
  self := set_raster_data (Some raster)
            (set_raster_path (Some "scene.tif")
               (set_gdf (Some 0%nat)
                  (set_shapefile_path (Some "parcels.shp") init)));
  heap := [frame];
  log := []
|}.

(** A session with the raster loaded and one of its bands displayed. *)
Definition displayed : World := {|
  self := set_last_displayed_type (Some "raster")
            (set_last_displayed_data (Some (ObjArray band)) (self loaded));
  heap := [frame];
  log := []
|}.

End Demo.

(** ** Properties the claims are stated with *)

Module Props.

Import IndexMath Gui.

(** In a run's events, an error dialog comes before the first library
    call (and there is one). *)
Fixpoint report_precedes_calls (events : list event) : bool :=
  match events with
  | [] => false
  | Critical _ _ :: _ => true
  | Called _ :: _ => false
  | _ :: rest => report_precedes_calls rest
  end.

(** The band numbers [calculate_index] reads, in order. *)
Definition bands_read (index_type : string)
    (red_band nir_band green_band swir_band : Z) : list Z :=
  if String.eqb index_type "NDVI" then [red_band; nir_band]
  else if String.eqb index_type "NDWI" then [green_band; nir_band]
  else if String.eqb index_type "NDBI" then [swir_band; nir_band]
  else [].

Definition band_in_range (rd : DatasetReader) (band : Z) : Prop :=
  1 <= band <= Z.of_nat (length (ds_bands rd)).

Global Instance band_in_range_dec rd band : Decision (band_in_range rd band).
Proof. unfold band_in_range. apply _. Defined.


(** [kept w w']: every GeoDataFrame object of [w] is in [w'] as it
    was; no object was modified in place. *)
Definition kept (w w' : World) : Prop :=
  forall i g, heap w !! i = Some g -> heap w' !! i = Some g.

(** The references held by the window point into the heap. *)
Definition wf (w : World) : Prop :=
  (forall r, gdf (self w) = Some r -> (r < length (heap w))%nat) /\
  (forall r, last_displayed_data (self w) = Some (ObjFrame r) ->
             (r < length (heap w))%nat).


(** The helper [calculate_index] applies to the two bands it read. *)
Definition index_helper (index_type : string) : ndarray -> ndarray -> res ndarray :=
  if String.eqb index_type "NDVI" then calculate_ndvi
  else if String.eqb index_type "NDWI" then calculate_ndwi
  else calculate_ndbi.

(** The session once [calculate_index] has asked for its four band
    numbers. *)
Definition after_band_prompts (w : World) : World :=
  {| self := self w; heap := heap w;
     log := log w ++ [Asked "Red Band"; Asked "NIR Band"; Asked "Green Band";
                      Asked "SWIR Band"] |}.

(** The profile [export_displayed_data] opens the GeoTIFF with, for the
    displayed array [a] and the loaded raster [rd]. *)
Definition export_profile (a : ndarray) (rd : DatasetReader) : Profile :=
  {| p_driver := "GTiff";
     p_height := fst (arr_shape a);
     p_width := snd (arr_shape a);
     p_count := 1;
     p_dtype := arr_dtype a;
     p_crs := ds_crs rd;
     p_transform := ds_transform rd |}.

End Props.

(** ** Properties of whole sessions *)

Module SessionProps.

Import IndexMath Gui.

(** The index types the menu bar passes to [calculate_index]
    ([setup_menu], lines 75-82). *)
Definition menu_index_types : list string := ["NDVI"; "NDBI"; "NDWI"].

(** The tag of the DisplayedArtifact fits the object displayed, and a
    displayed array comes with a loaded raster. *)
Definition coherent (w : World) : Prop :=
  match last_displayed_data (self w) with
  | None => last_displayed_type (self w) = None
  | Some (ObjArray _) =>
      last_displayed_type (self w) = Some "raster" /\
      raster_data (self w) <> None
  | Some (ObjFrame _) => last_displayed_type (self w) = Some "shapefile"
  end.

(** Whatever [s] holds, [s'] holds something too: nothing was set back
    to [None]. *)
Definition still_loaded (s s' : MainWindow) : Prop :=
  (raster_path s <> None -> raster_path s' <> None) /\
  (shapefile_path s <> None -> shapefile_path s' <> None) /\
  (raster_data s <> None -> raster_data s' <> None) /\
  (gdf s <> None -> gdf s' <> None) /\
  (db_connection s <> None -> db_connection s' <> None) /\
  (last_displayed_data s <> None -> last_displayed_data s' <> None) /\
  (last_displayed_type s <> None -> last_displayed_type s' <> None).

(** The two bands an index type works on, as widened arrays in the
    order of the normalized difference [(a - b) / (a + b)]: for NDVI the
    second band read (NIR) comes first. *)
Definition index_operands (index_type : string) (first_read second_read : ndarray)
    : ndarray * ndarray :=
  if String.eqb index_type "NDVI" then (second_read, first_read)
  else (first_read, second_read).

(** The layer an import leaves in [self.gdf]: the table as read, with
    the CRS EPSG:4326 when it has none. *)
Definition imported (g : GeoDataFrame) : GeoDataFrame :=
  match gdf_crs g with
  | None => set_crs g "EPSG:4326"
  | Some _ => g
  end.

End SessionProps.

(** ** More sample collaborators and sessions *)

Module Samples.

Import Gui.

(** [L] with another PostGIS table behind [read_postgis] and another
    [union_centroid]. *)
Definition with_database (L : Lib)
    (table : res GeoDataFrame) (centre : res coord) : Lib := {|
  rasterio_open := rasterio_open L;
  gpd_read_file := gpd_read_file L;
  geometry_buffer := geometry_buffer L;
  is_valid := is_valid L;
  to_crs := to_crs L;
  is_geographic := is_geographic L;
  rasterio_mask := rasterio_mask L;
  matplotlib_render := matplotlib_render L;
  centroid := centroid L;
  union_centroid := fun _ => centre;
  folium_save := folium_save L;
  webbrowser_open := webbrowser_open L;
  map_path_beside := map_path_beside L;
  expanduser := expanduser L;
  psycopg2_connect := psycopg2_connect L;
  read_postgis := fun _ _ => table;
  to_file := to_file L;
  rasterio_create := rasterio_create L;
  dst_write := dst_write L
|}.

(** A table without rows and without CRS. *)
Definition empty_table : GeoDataFrame := {| gdf_crs := None; gdf_rows := [] |}.

(** A library whose table is empty and whose union has no centroid. *)
Definition bare : Lib :=
  with_database (Demo.lib true) (Ok empty_table)
    (Raise (Exn ValueError "no centroid")).

(** A session with the shapefile loaded and a database connection open. *)
Definition connected : World := {|
  self := set_db_connection (Some Demo.connection) (self Demo.loaded);
  heap := heap Demo.loaded;
  log := []
|}.

(** A session with a database connection open and nothing else: no
    shapefile was uploaded. *)
Definition connected_only : World := {|
  self := set_db_connection (Some Demo.connection) init;
  heap := [];
  log := []
|}.

End Samples.

(** ** Index math *)

Module IndexMathFacts.

Import IndexMath.

Section OneArray.
Context {A : Type}.

Lemma stretch_same (n : nat) (l : list A) : length l = n -> stretch n l = l.
Proof.
  intros <-. destruct l as [|x [|y l]]; reflexivity.
Qed.

Lemma shape_of_has_shape (r c : nat) (a : list (list A)) :
  has_shape r c a -> a <> [] -> shape a = (r, c).
Proof.
  intros [Hr Hc] Hne. destruct a as [|row a]; [congruence|].
  unfold shape. apply Forall_cons in Hc as [Hrow _]. simpl in *. congruence.
Qed.

Lemma has_shape_nil_inv (r c : nat) : has_shape r c (@nil (list A)) -> r = 0%nat.
Proof. intros [Hr _]. symmetry. exact Hr. Qed.

Lemma map_stretch_same (r c : nat) (a : list (list A)) :
  has_shape r c a -> map (stretch c) a = a.
Proof.
  intros [_ Hc]. induction Hc as [|row a Hrow _ IH]; simpl; [reflexivity|].
  rewrite (stretch_same c row Hrow), IH. reflexivity.
Qed.

End OneArray.

Section Shapes.
Context {A B C : Type}.

Lemma has_shape_zip_with (f : A -> B -> C) (r c : nat)
    (a : list (list A)) (b : list (list B)) :
  has_shape r c a -> has_shape r c b ->
  has_shape r c (zip_with (zip_with f) a b).
Proof.
  intros [Ha Hca] [Hb Hcb]. split.
  - rewrite length_zip_with. lia.
  - apply Forall_forall. intros row Hrow.
    apply elem_of_lookup_zip_with in Hrow as (i & x & y & -> & Hx & Hy).
    rewrite length_zip_with.
    rewrite Forall_forall in Hca. rewrite Forall_forall in Hcb.
    rewrite (Hca x), (Hcb y); [lia| |]; eapply list_elem_of_lookup_2; eauto.
Qed.

Lemma has_shape_map (f : A -> B) (r c : nat) (a : list (list A)) :
  has_shape r c a -> has_shape r c (map (map f) a).
Proof.
  intros [Ha Hca]. split.
  - rewrite length_map. exact Ha.
  - apply Forall_map. eapply Forall_impl; [exact Hca|].
    intros row Hrow. simpl. rewrite length_map. exact Hrow.
Qed.

Lemma cell_zip_with (f : A -> B -> C) (a : list (list A)) (b : list (list B))
    (i j : nat) (x : A) (y : B) :
  cell a i j = Some x -> cell b i j = Some y ->
  cell (zip_with (zip_with f) a b) i j = Some (f x y).
Proof.
  unfold cell. intros Hx Hy. rewrite lookup_zip_with.
  destruct (a !! i) as [ra|]; [|discriminate].
  destruct (b !! i) as [rb|]; [|discriminate].
  simpl in *. rewrite lookup_zip_with, Hx, Hy. reflexivity.
Qed.

Lemma cell_map (f : A -> B) (a : list (list A)) (i j : nat) (x : A) :
  cell a i j = Some x -> cell (map (map f) a) i j = Some (f x).
Proof.
  unfold cell. intros Hx. rewrite list_lookup_fmap.
  destruct (a !! i) as [ra|]; [|discriminate].
  simpl in *. rewrite list_lookup_fmap, Hx. reflexivity.
Qed.

(** On equal-shaped arrays nothing is stretched: the operation applies
    to the elements pairwise. *)
Lemma elementwise2_equal_shapes (f : A -> B -> C) (r c : nat)
    (a : list (list A)) (b : list (list B)) :
  has_shape r c a -> has_shape r c b ->
  elementwise2 f a b = Ok (zip_with (zip_with f) a b).
Proof.
  intros Ha Hb. unfold elementwise2.
  destruct a as [|ra a'].
  - apply has_shape_nil_inv in Ha as ->.
    destruct Hb as [Hb _]. apply nil_length_inv in Hb as ->. reflexivity.
  - destruct b as [|rb b'].
    { destruct Ha as [Ha _], Hb as [Hb _]. simpl in Ha, Hb. congruence. }
    rewrite (shape_of_has_shape r c (ra :: a') Ha) by discriminate.
    rewrite (shape_of_has_shape r c (rb :: b') Hb) by discriminate.
    simpl fst. simpl snd. unfold bdim. rewrite !Nat.eqb_refl.
    rewrite (map_stretch_same r c _ Ha), (map_stretch_same r c _ Hb).
    rewrite (stretch_same r (ra :: a')) by apply Ha.
    rewrite (stretch_same r (rb :: b')) by apply Hb.
    reflexivity.
Qed.

End Shapes.

(** The common body of the three helpers, on the widened bands [a] and
    [b]: the array of [(a - b) / (a + b)], with 0 where [a + b == 0]. *)
Lemma normalized_difference_array (r c : nat) (a b : list (list float)) :
  has_shape r c a -> has_shape r c b ->
  exists out,
    (s <- np_add a b ;;
     let cond := eq_scalar s 0%float in
     num <- np_sub a b ;;
     den <- np_add a b ;;
     q <- np_div num den ;;
     out <- np_where cond 0%float q ;;
     Ok (FloatArr float64 out)) = Ok (FloatArr float64 out) /\
    has_shape r c out /\
    forall i j x y,
      cell a i j = Some x -> cell b i j = Some y ->
      cell out i j = Some (normalized_difference x y).
Proof.
  intros Ha Hb. unfold np_add, np_sub, np_div, np_where, eq_scalar.
  rewrite !(elementwise2_equal_shapes _ r c a b Ha Hb). cbn [res_bind].
  pose proof (has_shape_zip_with PrimFloat.add r c a b Ha Hb) as Hs.
  pose proof (has_shape_zip_with PrimFloat.sub r c a b Ha Hb) as Hn.
  pose proof (has_shape_zip_with PrimFloat.div r c _ _ Hn Hs) as Hq.
  pose proof (has_shape_map (fun x => PrimFloat.eqb x 0) r c _ Hs) as Hc.
  rewrite (elementwise2_equal_shapes _ r c _ _ Hn Hs). cbn [res_bind].
  rewrite (elementwise2_equal_shapes _ r c _ _ Hc Hq). cbn [res_bind].
  eexists. split; [reflexivity|]. split.
  - apply has_shape_zip_with; assumption.
  - intros i j x y Hx Hy.
    pose proof (cell_zip_with PrimFloat.add a b i j x y Hx Hy) as Hsum.
    pose proof (cell_zip_with PrimFloat.sub a b i j x y Hx Hy) as Hnum.
    pose proof (cell_map (fun v => PrimFloat.eqb v 0) _ i j _ Hsum) as Hcond.
    pose proof (cell_zip_with PrimFloat.div _ _ i j _ _ Hnum Hsum) as Hquot.
    rewrite (cell_zip_with _ _ _ i j _ _ Hcond Hquot). reflexivity.
Qed.

(** The end-to-end scenario of the specification: both bands are
    [[1,2],[3,0]], so the NDVI is 0 everywhere, also where both are 0. *)
Example ndvi_of_equal_bands :
  calculate_ndvi Demo.band Demo.band
  = Ok (FloatArr float64 [[0; 0]; [0; 0]]%float).
Proof. vm_compute. reflexivity. Qed.

(** The bands are widened before the arithmetic: 200 + 100 does not wrap
    around in uint8. *)
Example ndvi_widens_uint8 :
  calculate_ndvi (IntArr uint8 [[100]]) (IntArr uint8 [[200]])
  = Ok (FloatArr float64 [[(100 / 300)%float]]).
Proof. vm_compute. reflexivity. Qed.

(** Shapes that do not broadcast raise, as NumPy does. *)
Example ndvi_shape_mismatch :
  calculate_ndvi (IntArr uint8 [[1; 2; 3]]) (IntArr uint8 [[1; 2]])
  = Raise (Exn ValueError "operands could not be broadcast together").
Proof. vm_compute. reflexivity. Qed.

(** C1. For equal-shaped 2-D arrays [a] and [b], widened to binary64
    first: [calculate_ndvi a b] is [(b - a) / (b + a)] at every pixel,
    [calculate_ndwi a b] and [calculate_ndbi a b] are
    [(a - b) / (a + b)], and a pixel whose denominator equals zero is
    exactly 0, which is neither NaN nor an infinity. *)
Theorem calculate_indices_elementwise (a b : ndarray) (r c : nat) :
  has_shape r c (astype_float a) ->
  has_shape r c (astype_float b) ->
  exists ndvi ndwi ndbi,
    calculate_ndvi a b = Ok (FloatArr float64 ndvi) /\
    calculate_ndwi a b = Ok (FloatArr float64 ndwi) /\
    calculate_ndbi a b = Ok (FloatArr float64 ndbi) /\
    has_shape r c ndvi /\ has_shape r c ndwi /\ has_shape r c ndbi /\
    forall i j x y,
      cell (astype_float a) i j = Some x ->
      cell (astype_float b) i j = Some y ->
      cell ndvi i j
        = Some (if PrimFloat.eqb (y + x) 0 then 0 else (y - x) / (y + x))%float /\
      cell ndwi i j
        = Some (if PrimFloat.eqb (x + y) 0 then 0 else (x - y) / (x + y))%float /\
      cell ndbi i j
        = Some (if PrimFloat.eqb (x + y) 0 then 0 else (x - y) / (x + y))%float /\
      (PrimFloat.eqb (y + x) 0 = true ->
         exists v, cell ndvi i j = Some v /\ v = 0%float /\
                   PrimFloat.is_nan v = false /\ PrimFloat.is_infinity v = false) /\
      (PrimFloat.eqb (x + y) 0 = true ->
         exists v, cell ndwi i j = Some v /\ cell ndbi i j = Some v /\ v = 0%float /\
                   PrimFloat.is_nan v = false /\ PrimFloat.is_infinity v = false).
Proof.
  intros Ha Hb.
  destruct (normalized_difference_array r c _ _ Hb Ha) as (ndvi & Evi & Svi & Cvi).
  destruct (normalized_difference_array r c _ _ Ha Hb) as (nd & End & Snd & Cnd).
  exists ndvi, nd, nd.
  unfold calculate_ndvi, calculate_ndwi, calculate_ndbi.
  do 6 (split; [assumption|]).
  intros i j x y Hx Hy. repeat split.
  - rewrite (Cvi i j y x) by assumption. reflexivity.
  - rewrite (Cnd i j x y) by assumption. reflexivity.
  - rewrite (Cnd i j x y) by assumption. reflexivity.
  - intros Hz. exists 0%float. rewrite (Cvi i j y x) by assumption.
    unfold normalized_difference. rewrite Hz. repeat split; reflexivity.
  - intros Hz. exists 0%float. rewrite (Cnd i j x y) by assumption.
    unfold normalized_difference. rewrite Hz. repeat split; reflexivity.
Qed.

Lemma calculate_indices_elementwise_witness :
  exists ndvi ndwi ndbi,
    calculate_ndvi Demo.band Demo.band = Ok (FloatArr float64 ndvi) /\
    calculate_ndwi Demo.band Demo.band = Ok (FloatArr float64 ndwi) /\
    calculate_ndbi Demo.band Demo.band = Ok (FloatArr float64 ndbi) /\
    cell ndvi 1 1 = Some 0%float /\ cell ndwi 0 1 = Some 0%float /\
    cell ndbi 1 0 = Some 0%float.
Proof.
  assert (Hs : has_shape 2 2 (astype_float Demo.band)).
  { split; [reflexivity | repeat constructor]. }
  destruct (calculate_indices_elementwise Demo.band Demo.band 2 2 Hs Hs)
    as (ndvi & ndwi & ndbi & Evi & Ewi & Ebi & _ & _ & _ & Hcell).
  exists ndvi, ndwi, ndbi.
  split; [exact Evi|]. split; [exact Ewi|]. split; [exact Ebi|].
  split; [|split].
  - destruct (Hcell 1%nat 1%nat 0%float 0%float) as (H & _);
      [reflexivity..|exact H].
  - destruct (Hcell 0%nat 1%nat 2%float 2%float) as (_ & H & _);
      [reflexivity..|exact H].
  - destruct (Hcell 1%nat 0%nat 3%float 3%float) as (_ & _ & H & _);
      [reflexivity..|exact H].
Defined.

(** C10. [calculate_ndwi] and [calculate_ndbi] are the same function of
    their two arguments, and on equal-shaped arrays both return the array
    of [(a - b) / (a + b)], with 0 where [a + b] is zero. *)
Theorem ndwi_ndbi_agree (a b : ndarray) (r c : nat) :
  has_shape r c (astype_float a) ->
  has_shape r c (astype_float b) ->
  calculate_ndwi a b = calculate_ndbi a b /\
  exists out,
    calculate_ndwi a b = Ok (FloatArr float64 out) /\
    calculate_ndbi a b = Ok (FloatArr float64 out) /\
    has_shape r c out /\
    forall i j x y,
      cell (astype_float a) i j = Some x ->
      cell (astype_float b) i j = Some y ->
      cell out i j = Some (normalized_difference x y).
Proof.
  intros Ha Hb. split; [reflexivity|].
  destruct (normalized_difference_array r c _ _ Ha Hb) as (out & E & S & Hc).
  exists out. unfold calculate_ndwi, calculate_ndbi. auto.
Qed.

Lemma ndwi_ndbi_agree_witness :
  calculate_ndwi (IntArr uint8 [[3; 0]]) (IntArr uint8 [[1; 0]])
  = calculate_ndbi (IntArr uint8 [[3; 0]]) (IntArr uint8 [[1; 0]]).
Proof.
  apply (ndwi_ndbi_agree (IntArr uint8 [[3; 0]]) (IntArr uint8 [[1; 0]]) 1 2);
    (split; [reflexivity | repeat constructor]).
Defined.

(** The two helpers agree on every input, whatever the shapes. *)
Lemma ndwi_ndbi_same_function (a b : ndarray) :
  calculate_ndwi a b = calculate_ndbi a b.
Proof. reflexivity. Qed.

End IndexMathFacts.


(** ** The handlers *)

Module GuiFacts.

Import IndexMath Gui Props.

(** Unfolding of the monad, for running a handler on a world. *)
Ltac run :=
  cbv beta delta [bind ret raise lift try_except try_except_only get_self
    emit called critical information ask alloc deref store assign
    gdf_object raster_object read_band show_image truth_gdf hasattr_gdf
    truthy_obj truthy_str] iota;
  cbn [self heap log negb fst snd raster_path shapefile_path raster_data gdf
       db_connection last_displayed_data last_displayed_type
       set_raster_path set_shapefile_path set_raster_data set_gdf
       set_db_connection set_last_displayed_data set_last_displayed_type].

Ltac run_in H :=
  cbv beta delta [bind ret raise lift try_except try_except_only get_self
    emit called critical information ask alloc deref store assign
    gdf_object raster_object read_band show_image truth_gdf hasattr_gdf
    truthy_obj truthy_str] iota in H;
  cbn [self heap log negb fst snd raster_path shapefile_path raster_data gdf
       db_connection last_displayed_data last_displayed_type
       set_raster_path set_shapefile_path set_raster_data set_gdf
       set_db_connection set_last_displayed_data set_last_displayed_type] in H.

Section Buffer.

Variable L : Lib.

(** C3. With a non-empty vector layer loaded, a distance [d <= 0] is
    rejected with the "Invalid buffer distance." dialog; nothing was
    called in a library before it, and the attributes of the window and
    the stored layer are what they were. *)
Theorem buffer_rejects_nonpositive_distance
    (w : World) (r : ref) (g : GeoDataFrame) (distance : float) (ok : bool) :
  gdf (self w) = Some r ->
  heap w !! r = Some g ->
  frame_empty g = false ->
  PrimFloat.leb distance 0 = true ->
  buffer_tool L distance ok w
  = (Ok tt,
     {| self := self w; heap := heap w;
        log := log w ++ [Asked "Buffer Distance";
                         Critical "Error" "Invalid buffer distance."] |}).
Proof.
  intros Hgdf Hobj Hrows Hd. unfold buffer_tool, buffer_tool_body. run.
  rewrite Hgdf. run. rewrite Hobj, Hrows. run. rewrite Hd, orb_true_r. run.
  rewrite <- app_assoc. reflexivity.
Qed.

End Buffer.

(** *** Objects are never modified in place *)

Lemma kept_alloc (h : list GeoDataFrame) (g : GeoDataFrame) i x :
  h !! i = Some x -> (h ++ [g]) !! i = Some x.
Proof. intros H. apply lookup_app_l_Some. exact H. Qed.

Lemma kept_alloc_store (h : list GeoDataFrame) (g g' : GeoDataFrame) i x :
  h !! i = Some x -> <[length h := g']> (h ++ [g]) !! i = Some x.
Proof.
  intros H. pose proof (lookup_lt_Some _ _ _ H) as Hlt.
  rewrite list_lookup_insert_ne by lia. apply lookup_app_l_Some. exact H.
Qed.

Lemma kept_alloc2 (h : list GeoDataFrame) (g g' : GeoDataFrame) i x :
  h !! i = Some x -> ((h ++ [g]) ++ [g']) !! i = Some x.
Proof. intros H. do 2 apply lookup_app_l_Some. exact H. Qed.

Ltac branches H :=
  repeat (first
    [ progress run_in H
    | match type of H with
      | context [match ?x with _ => _ end] =>
          lazymatch x with
          | context [match _ with _ => _ end] => fail
          | _ => destruct x eqn:?
          end
      end ]).

Ltac frame_done :=
  match goal with
  | H : (_, _) = (_, _) |- _ => injection H as <- <-
  end;
  cbn [self heap log gdf set_gdf set_raster_data set_raster_path
       set_shapefile_path set_db_connection set_last_displayed_data
       set_last_displayed_type];
  first [ split; [ intros i x Hx;
                   first [ exact Hx | apply kept_alloc, Hx
                         | apply kept_alloc_store, Hx | apply kept_alloc2, Hx ]
                 | first [ reflexivity | congruence ] ]
        | intros i x Hx;
          first [ exact Hx | apply kept_alloc, Hx
                | apply kept_alloc_store, Hx | apply kept_alloc2, Hx ] ].

Section Frame.

Variable L : Lib.





Lemma clip_raster_body_frame w r w' :
  clip_raster_body L w = (r, w') -> kept w w'.
Proof. unfold clip_raster_body. intros H. branches H; frame_done. Qed.










(** Once an artifact is displayed, one stays displayed: no handler sets
    [last_displayed_data] back to [None]. *)
Lemma artifact_stays a w r w' :
  handle L a w = (r, w') ->
  last_displayed_data (self w) <> None ->
  last_displayed_data (self w') <> None.
Proof.
  intros H Hsome. destruct a; cbn [handle] in H;
    unfold upload_raster, upload_shapefile, calculate_index,
      calculate_index_body, index_branch, buffer_tool, buffer_tool_body,
      clip_raster, clip_raster_body, display_raster, visualize_shapefile,
      visualize_shapefile_on_gui, export_displayed_data, export_body,
      connect_to_postgis, import_and_visualize_from_postgis in H;
    branches H; injection H as <- <-;
    cbn [self last_displayed_data set_gdf set_raster_data set_raster_path
         set_shapefile_path set_db_connection set_last_displayed_data
         set_last_displayed_type fmap option_fmap option_map];
    first [ exact Hsome | discriminate | congruence ].
Qed.

(** The references of the window stay within the heap, whatever is
    done: an attribute access through [self.gdf] or the displayed frame
    never dangles. *)
Lemma handle_wf a w r w' :
  handle L a w = (r, w') -> wf w -> wf w'.
Proof.
  intros H Hwf. destruct a; cbn [handle] in H;
    unfold upload_raster, upload_shapefile, calculate_index,
      calculate_index_body, index_branch, buffer_tool, buffer_tool_body,
      clip_raster, clip_raster_body, display_raster, visualize_shapefile,
      visualize_shapefile_on_gui, export_displayed_data, export_body,
      connect_to_postgis, import_and_visualize_from_postgis in H;
    branches H; injection H as <- <-; destruct Hwf as [Hg Hd];
    (split; intros rx Hrx;
     cbn [self heap gdf last_displayed_data set_gdf set_raster_data
          set_raster_path set_shapefile_path set_db_connection
          set_last_displayed_data set_last_displayed_type
          fmap option_fmap option_map] in *;
     rewrite ?length_insert, ?length_app; cbn [length];
     first [ discriminate
           | injection Hrx as <-; rewrite ?length_app; cbn [length]; lia
           | apply Hg in Hrx; lia
           | apply Hd in Hrx; lia ]).
Qed.

Lemma event_loop_wf actions w :
  wf w -> wf (event_loop L actions w).2.
Proof.
  revert w. induction actions as [|a rest IH]; intros w Hwf; [exact Hwf|].
  cbn [event_loop]. destruct (handle L a w) as [[u|e] w'] eqn:H.
  - apply IH. exact (handle_wf a w _ w' H Hwf).
  - exact (handle_wf a w _ w' H Hwf).
Qed.

End Frame.

(** *** Sessions from start-up *)

Lemma wf_fresh : wf Demo.fresh.
Proof. split; intros r H; discriminate H. Qed.

(** The end-to-end scenario of the specification: a two-band raster with
    both bands [[1,2],[3,0]], NDVI with red band 1 and NIR band 2: the
    displayed array is 0 everywhere. *)
Example session_ndvi :
  last_displayed_data
    (self (event_loop (Demo.lib true)
             [UploadRaster "scene.tif"; CalculateIndex "NDVI" 1 2 1 1]
             Demo.fresh).2)
  = Some (ObjArray (FloatArr float64 [[0; 0]; [0; 0]]%float)).
Proof. vm_compute. reflexivity. Qed.

(** Upload a raster and a shapefile, then clip: the session ends on the
    ValueError of the guard. *)
Example session_clip :
  (event_loop (Demo.lib true)
     [UploadRaster "scene.tif"; UploadShapefile "parcels.shp"; ClipRaster]
     Demo.fresh).1
  = Raise (Exn ValueError
      "The truth value of a GeoDataFrame is ambiguous. Use a.empty, a.bool(), a.item(), a.any() or a.all().").
Proof. vm_compute. reflexivity. Qed.

(** Upload a shapefile, buffer it by 5, export: the shapefile written is
    the buffered copy, and the stored layer is the one uploaded. *)
Example session_buffer_export :
  let w := (event_loop (Demo.lib true)
              [UploadShapefile "parcels.shp"; BufferTool 5 true;
               ExportDisplayedData "buffered.shp"]
              Demo.fresh).2 in
  gdf (self w) = Some 0%nat /\
  last_displayed_data (self w) = Some (ObjFrame 1%nat) /\
  heap w = [Demo.frame;
            with_geometry Demo.frame [Demo.square (1, 1)%float 5]] /\
  last (log w)
  = Some (Information "Success" "Data exported successfully to buffered.shp.").
Proof. vm_compute. repeat split; reflexivity. Qed.

(** *** The guards of [buffer_tool] and [clip_raster] *)

(** C4. With no vector layer loaded ([self.gdf] is [None], as [__init__]
    leaves it), [hasattr(self, 'gdf')] holds, so the guard goes on to
    [self.gdf.empty], which raises AttributeError outside the [try]
    block: no dialog is shown and the exception leaves the handler. *)
Theorem buffer_tool_without_layer_raises
    (L : Lib) (s : MainWindow) (h : list GeoDataFrame) (lg : list event)
    (distance : float) (ok : bool) :
  buffer_tool L distance ok {| self := set_gdf None s; heap := h; log := lg |}
  = (Raise (Exn AttributeError "'NoneType' object has no attribute 'empty'"),
     {| self := set_gdf None s; heap := h; log := lg |}).
Proof. reflexivity. Qed.

(** Right after start-up, too. *)
Example buffer_tool_at_startup :
  buffer_tool (Demo.lib true) 5 true Demo.fresh
  = (Raise (Exn AttributeError "'NoneType' object has no attribute 'empty'"),
     Demo.fresh).
Proof. reflexivity. Qed.

(** The other outcomes of the guard: a missing raster or a missing layer
    is reported. *)
Lemma clip_raster_missing_input (L : Lib) (w : World) :
  raster_data (self w) = None \/ gdf (self w) = None ->
  clip_raster L w
  = (Ok tt,
     {| self := self w; heap := heap w;
        log := log w ++ [Critical "Error" "Please upload raster and shapefile first."] |}).
Proof.
  intros H. unfold clip_raster. run.
  destruct (raster_data (self w)) as [rd|]; [|reflexivity].
  destruct H as [H|H]; [discriminate|]. rewrite H. reflexivity.
Qed.

(** C2. [clip_raster] never reaches its [try] block. With a raster and
    a vector layer loaded, the guard
    [not self.raster_data or not self.gdf] asks a GeoDataFrame for its
    truth value, which raises ValueError outside the [try]: the handler
    neither reprojects nor masks, stores no artifact and shows no dialog.
    In every other state it reports the missing input. *)
Theorem clip_raster_with_both_loaded_raises (L : Lib) (w : World) :
  match raster_data (self w), gdf (self w) with
  | Some _, Some _ =>
      clip_raster L w
      = (Raise (Exn ValueError
           "The truth value of a GeoDataFrame is ambiguous. Use a.empty, a.bool(), a.item(), a.any() or a.all()."),
         w)
  | _, _ =>
      clip_raster L w
      = (Ok tt,
         {| self := self w; heap := heap w;
            log := log w ++
              [Critical "Error" "Please upload raster and shapefile first."] |})
  end.
Proof.
  destruct (raster_data (self w)) as [rd|] eqn:Hrd.
  - destruct (gdf (self w)) as [r|] eqn:Hgdf.
    + unfold clip_raster. run. rewrite Hrd, Hgdf. run.
      destruct w; reflexivity.
    + apply clip_raster_missing_input. auto.
  - destruct (gdf (self w)); apply clip_raster_missing_input; auto.
Qed.

(** With the sample raster and layer loaded: the exception leaves the
    handler, and the session is as it was. *)
Example clip_raster_on_loaded_session :
  clip_raster (Demo.lib true) Demo.loaded
  = (Raise (Exn ValueError
       "The truth value of a GeoDataFrame is ambiguous. Use a.empty, a.bool(), a.item(), a.any() or a.all()."),
     Demo.loaded).
Proof. reflexivity. Qed.

(** C6. A raster and a layer whose only geometry is invalid: the guard
    raises as it does for every loaded layer, before the geometries are
    looked at. Nothing is reported, and the DisplayedArtifact is what it
    was. *)
Theorem clip_raster_without_valid_geometry_raises :
  filter (fun geom => is_valid (Demo.lib false) geom = true)
    (geometries Demo.frame) = [] /\
  clip_raster (Demo.lib false) Demo.loaded
  = (Raise (Exn ValueError
       "The truth value of a GeoDataFrame is ambiguous. Use a.empty, a.bool(), a.item(), a.any() or a.all()."),
     Demo.loaded).
Proof. split; reflexivity. Qed.

(** *** What the [try] blocks do *)

Lemma heap_fresh_lookup (h : list GeoDataFrame) (g : GeoDataFrame) :
  (h ++ [g]) !! length h = Some g.
Proof. apply list_lookup_middle. reflexivity. Qed.


Section Bodies.

Variable L : Lib.


(** Different CRSs: the layer is reprojected to the raster's CRS, and
    the reprojected frame, a new object, is assigned to [self.gdf]. *)
Lemma clip_raster_body_reprojects
    (w : World) (r : ref) (g g' : GeoDataFrame) (rd : DatasetReader) :
  gdf (self w) = Some r ->
  heap w !! r = Some g ->
  raster_data (self w) = Some rd ->
  gdf_crs g <> ds_crs rd ->
  to_crs L g (ds_crs rd) = Ok g' ->
  exists res w',
    clip_raster_body L w = (res, w') /\
    gdf (self w') = Some (length (heap w)) /\
    heap w' = heap w ++ [g'] /\
    heap w' !! r = Some g /\
    In (Called (CMask (filter (fun geom => is_valid L geom = true) (geometries g'))))
       (log w').
Proof.
  intros Hgdf Hobj Hrd Hcrs Hto. unfold clip_raster_body. run.
  rewrite Hgdf. run. rewrite Hobj. run. rewrite Hrd. run.
  rewrite (bool_decide_eq_true_2 _ Hcrs). run. rewrite Hto. run.
  rewrite heap_fresh_lookup. run. rewrite Hrd. run.
  assert (Hkept : (heap w ++ [g']) !! r = Some g)
    by (apply lookup_app_l_Some, Hobj).
  set (shapes := filter _ (geometries g')).
  destruct (rasterio_mask L rd shapes) as [[out_image out_transform]|e]; run.
  - destruct out_image as [|band rest]; cbn [first]; run.
    + do 2 eexists. split; [reflexivity|]. cbn [self heap log gdf set_gdf].
      repeat split; auto. apply in_or_app. right. left. reflexivity.
    + destruct (matplotlib_render L (ImageFigure band "viridis" "Clipped Raster"))
        as [[]|e]; run;
        (do 2 eexists; split; [reflexivity|]; cbn [self heap log gdf set_gdf
           set_last_displayed_data set_last_displayed_type];
         repeat split; auto; rewrite ?in_app_iff; simpl; tauto).
  - do 2 eexists. split; [reflexivity|]. cbn [self heap log gdf set_gdf].
    repeat split; auto. apply in_or_app. right. left. reflexivity.
Qed.

(** Equal CRSs and a mask that succeeds: band 1 of the masked image is
    stored as the DisplayedArtifact, tagged "raster"; the transform the
    mask returned is dropped. *)
Lemma clip_raster_body_stores_band
    (w : World) (r : ref) (g : GeoDataFrame) (rd : DatasetReader)
    (band : ndarray) (rest : list ndarray) (out_transform : Affine) :
  gdf (self w) = Some r ->
  heap w !! r = Some g ->
  raster_data (self w) = Some rd ->
  gdf_crs g = ds_crs rd ->
  rasterio_mask L rd (filter (fun geom => is_valid L geom = true) (geometries g))
    = Ok (band :: rest, out_transform) ->
  matplotlib_render L (ImageFigure band "viridis" "Clipped Raster") = Ok tt ->
  clip_raster_body L w
  = (Ok tt,
     {| self := set_last_displayed_type (Some "raster")
                  (set_last_displayed_data (Some (ObjArray band)) (self w));
        heap := heap w;
        log := log w ++
          [Called (CMask (filter (fun geom => is_valid L geom = true) (geometries g)));
           Called (CRender (ImageFigure band "viridis" "Clipped Raster"));
           Information "Success" "Raster clipped successfully!"] |}).
Proof.
  intros Hgdf Hobj Hrd Hcrs Hmask Hshow. unfold clip_raster_body. run.
  rewrite Hgdf. run. rewrite Hobj. run. rewrite Hrd. run.
  rewrite (bool_decide_eq_false_2 (gdf_crs g <> ds_crs rd)) by tauto. run.
  rewrite Hgdf. run. rewrite Hobj. run. rewrite Hrd. run.
  rewrite Hmask. run. cbn [first]. run. rewrite Hshow. run.
  rewrite <- !app_assoc. reflexivity.
Qed.

(** A mask that raises (no valid geometry, no overlap with the raster):
    inside the handler's [try], the error is reported and no artifact is
    stored. *)
Lemma clip_raster_body_mask_failure
    (w : World) (r : ref) (g : GeoDataFrame) (rd : DatasetReader) (e : exn) :
  gdf (self w) = Some r ->
  heap w !! r = Some g ->
  raster_data (self w) = Some rd ->
  gdf_crs g = ds_crs rd ->
  rasterio_mask L rd (filter (fun geom => is_valid L geom = true) (geometries g))
    = Raise e ->
  try_except (clip_raster_body L)
    (fun e => critical "Error" ("Error while clipping raster: " ++ exn_msg e)) w
  = (Ok tt,
     {| self := self w; heap := heap w;
        log := log w ++
          [Called (CMask (filter (fun geom => is_valid L geom = true) (geometries g)));
           Critical "Error" ("Error while clipping raster: " ++ exn_msg e)] |}).
Proof.
  intros Hgdf Hobj Hrd Hcrs Hmask. unfold clip_raster_body. run.
  rewrite Hgdf. run. rewrite Hobj. run. rewrite Hrd. run.
  rewrite (bool_decide_eq_false_2 (gdf_crs g <> ds_crs rd)) by tauto. run.
  rewrite Hgdf. run. rewrite Hobj. run. rewrite Hrd. run.
  rewrite Hmask. run. rewrite <- !app_assoc. reflexivity.
Qed.

End Bodies.

(** *** Reading bands *)

Lemma ds_read_out_of_range (rd : DatasetReader) (band : Z) :
  ~ band_in_range rd band ->
  ds_read rd band = Raise (Exn IndexError "band index out of range").
Proof.
  intros Hout. unfold ds_read.
  destruct ((1 <=? band) && (band <=? Z.of_nat (length (ds_bands rd)))) eqn:E;
    [|reflexivity].
  exfalso. apply Hout. apply andb_true_iff in E as [H1 H2].
  unfold band_in_range. lia.
Qed.

Lemma ds_read_in_range (rd : DatasetReader) (band : Z) :
  band_in_range rd band -> exists a, ds_read rd band = Ok a.
Proof.
  intros [H1 H2]. unfold ds_read.
  replace ((1 <=? band) && (band <=? Z.of_nat (length (ds_bands rd)))) with true
    by (symmetry; apply andb_true_iff; lia).
  destruct (lookup_lt_is_Some_2 (ds_bands rd) (Z.to_nat (band - 1))) as [a Ha];
    [lia|].
  rewrite Ha. eauto.
Qed.

Section Reading.

Variable L : Lib.

(** Two reads followed by an index helper, as in each branch of
    [calculate_index]: a band number out of range is found by the read
    itself, after the call was made. *)
Lemma reads_fail (calc : ndarray -> ndarray -> res ndarray)
    (b1 b2 : Z) (w : World) (rd : DatasetReader) :
  raster_data (self w) = Some rd ->
  Exists (fun b => ~ band_in_range rd b) [b1; b2] ->
  exists evs b,
    (x <- read_band b1 ;;
     y <- read_band b2 ;;
     index_result <- lift (calc x y) ;;
     ret (Some index_result))%gui w
    = (Raise (Exn IndexError "band index out of range"),
       {| self := self w; heap := heap w; log := log w ++ evs |}) /\
    ~ band_in_range rd b /\
    ((evs = [Called (CRead b1)] /\ b = b1) \/
     (evs = [Called (CRead b1); Called (CRead b2)] /\ b = b2)).
Proof.
  intros Hrd Hex. run. rewrite Hrd. run.
  destruct (decide (band_in_range rd b1)) as [Hin|Hout].
  - assert (Hout2 : ~ band_in_range rd b2).
    { apply Exists_cons in Hex as [?|Hex]; [contradiction|].
      apply Exists_cons in Hex as [?|Hex]; [assumption|]. inversion Hex. }
    destruct (ds_read_in_range rd b1 Hin) as [a Ha]. rewrite Ha. run.
    rewrite Hrd. run. rewrite (ds_read_out_of_range rd b2 Hout2). run.
    exists [Called (CRead b1); Called (CRead b2)], b2.
    rewrite <- app_assoc. auto.
  - rewrite (ds_read_out_of_range rd b1 Hout). run.
    exists [Called (CRead b1)], b1. auto.
Qed.

Lemma calculate_index_returns t rb nb gb sb (w : World) :
  exists w', calculate_index L t rb nb gb sb w = (Ok tt, w').
Proof.
  destruct (calculate_index L t rb nb gb sb w) as [r w'] eqn:H.
  unfold calculate_index, calculate_index_body, index_branch in H.
  branches H; injection H as <- <-;
    repeat match goal with u : unit |- _ => destruct u end; eauto.
Qed.

Lemma display_raster_returns b ok (w : World) :
  exists w', display_raster L b ok w = (Ok tt, w').
Proof.
  destruct (display_raster L b ok w) as [r w'] eqn:H.
  unfold display_raster in H.
  branches H; injection H as <- <-;
    repeat match goal with u : unit |- _ => destruct u end; eauto.
Qed.

Lemma display_raster_rejects (b : Z) (ok : bool) (w : World) (rd : DatasetReader) :
  raster_data (self w) = Some rd ->
  b <= 0 \/ ok = false ->
  display_raster L b ok w
  = (Ok tt,
     {| self := self w; heap := heap w;
        log := log w ++ [Asked "Select Band";
                         Critical "Error" "Invalid band number."] |}).
Proof.
  intros Hrd Hbad. unfold display_raster. run. rewrite Hrd. run.
  replace (negb ok || (b <=? 0)) with true.
  - run. rewrite <- app_assoc. reflexivity.
  - symmetry. apply orb_true_iff.
    destruct Hbad as [Hb| ->]; [right; apply Z.leb_le, Hb | left; reflexivity].
Qed.

Lemma calculate_index_out_of_range t rb nb gb sb (w : World) (rd : DatasetReader) :
  raster_data (self w) = Some rd ->
  Exists (fun b => ~ band_in_range rd b) (bands_read t rb nb gb sb) ->
  exists evs b,
    calculate_index L t rb nb gb sb w
    = (Ok tt, {| self := self w; heap := heap w; log := log w ++ evs |}) /\
    report_precedes_calls evs = false /\
    In (Called (CRead b)) evs /\ ~ band_in_range rd b /\
    last evs = Some (Critical "Error"
                       ("Error calculating " ++ t ++ ": band index out of range")).
Proof.
  intros Hrd Hex.
  set (w4 := {| self := self w; heap := heap w;
                log := (((log w ++ [Asked "Red Band"]) ++ [Asked "NIR Band"])
                          ++ [Asked "Green Band"]) ++ [Asked "SWIR Band"] |}).
  assert (Hbranch : exists evs b,
    index_branch t rb nb gb sb w4
    = (Raise (Exn IndexError "band index out of range"),
       {| self := self w; heap := heap w; log := log w4 ++ evs |}) /\
    ~ band_in_range rd b /\
    exists b1 b2, (evs = [Called (CRead b1)] /\ b = b1) \/
                  (evs = [Called (CRead b1); Called (CRead b2)] /\ b = b2)).
  { unfold index_branch, bands_read in *.
    destruct (String.eqb t "NDVI");
      [|destruct (String.eqb t "NDWI"); [|destruct (String.eqb t "NDBI")]].
    - destruct (reads_fail calculate_ndvi rb nb w4 rd Hrd Hex) as (evs & b & E & Hb & Hs).
      exists evs, b. eauto 6.
    - destruct (reads_fail calculate_ndwi gb nb w4 rd Hrd Hex) as (evs & b & E & Hb & Hs).
      exists evs, b. eauto 6.
    - destruct (reads_fail calculate_ndbi sb nb w4 rd Hrd Hex) as (evs & b & E & Hb & Hs).
      exists evs, b. eauto 6.
    - inversion Hex. }
  destruct Hbranch as (evs & b & E & Hb & b1 & b2 & Hs).
  exists ([Asked "Red Band"; Asked "NIR Band"; Asked "Green Band"; Asked "SWIR Band"]
            ++ evs ++ [Critical "Error"
                         ("Error calculating " ++ t ++ ": band index out of range")]), b.
  split; [|split; [|split; [|split]]].
  - unfold calculate_index, calculate_index_body. run. rewrite Hrd. run.
    fold w4. rewrite E. run. subst w4. cbn [log].
    rewrite <- !app_assoc. reflexivity.
  - destruct Hs as [[-> _]|[-> _]]; reflexivity.
  - destruct Hs as [[-> ->]|[-> ->]]; simpl; tauto.
  - exact Hb.
  - rewrite app_assoc. apply last_snoc.
Qed.

(** The reads and the helper of [calculate_index] assign nothing. *)
Lemma index_branch_changes_nothing t rb nb gb sb (w0 : World) r (w1 : World) :
  index_branch t rb nb gb sb w0 = (r, w1) ->
  self w1 = self w0 /\ heap w1 = heap w0.
Proof.
  unfold index_branch. intros H. branches H; injection H as <- <-;
    split; reflexivity.
Qed.

(** Whatever is raised inside the [try] of [calculate_index] is caught
    and reported with its message. *)
Lemma calculate_index_reports t rb nb gb sb (w : World) (rd : DatasetReader)
    (e : exn) (w1 : World) :
  raster_data (self w) = Some rd ->
  calculate_index_body L t rb nb gb sb w = (Raise e, w1) ->
  calculate_index L t rb nb gb sb w
  = (Ok tt,
     {| self := self w1; heap := heap w1;
        log := log w1 ++
          [Critical "Error"
             ("Error calculating " ++ t ++ ": " ++ exn_msg e)] |}).
Proof.
  intros Hrd Hbody. unfold calculate_index. run. rewrite Hrd. run.
  rewrite Hbody. reflexivity.
Qed.

(** A failure of the index computation itself, a read or the helper:
    nothing was assigned before it. *)
Lemma index_failure_reported t rb nb gb sb (w : World) (rd : DatasetReader)
    (e : exn) (w1 : World) :
  raster_data (self w) = Some rd ->
  index_branch t rb nb gb sb (after_band_prompts w) = (Raise e, w1) ->
  calculate_index L t rb nb gb sb w
  = (Ok tt,
     {| self := self w; heap := heap w;
        log := log w1 ++
          [Critical "Error"
             ("Error calculating " ++ t ++ ": " ++ exn_msg e)] |}).
Proof.
  intros Hrd Hbranch.
  destruct (index_branch_changes_nothing _ _ _ _ _ _ _ _ Hbranch) as [Hself Hheap].
  cbn [after_band_prompts self heap] in Hself, Hheap.
  rewrite <- Hself, <- Hheap.
  apply (calculate_index_reports t rb nb gb sb w rd e w1 Hrd).
  unfold calculate_index_body. run.
  replace {| self := self w; heap := heap w;
             log := (((log w ++ [Asked "Red Band"]) ++ [Asked "NIR Band"])
                       ++ [Asked "Green Band"]) ++ [Asked "SWIR Band"] |}
    with (after_band_prompts w)
    by (unfold after_band_prompts; rewrite <- !app_assoc; reflexivity).
  rewrite Hbranch. reflexivity.
Qed.

End Reading.

(** *** Export *)

Section Exporting.

Variable L : Lib.

(** The run of [export_displayed_data] on a displayed array. *)
Lemma export_raster_run
    (w : World) (a : ndarray) (rd : DatasetReader) (file_path : string) :
  last_displayed_data (self w) = Some (ObjArray a) ->
  last_displayed_type (self w) = Some "raster" ->
  raster_data (self w) = Some rd ->
  file_path <> "" ->
  export_displayed_data L file_path w
  = (Ok tt,
     {| self := self w; heap := heap w;
        log := log w ++
          Asked "Save File" ::
          Called (CCreate file_path (export_profile a rd)) ::
          match rasterio_create L file_path (export_profile a rd) with
          | Raise e => [Critical "Error" ("Error exporting data: " ++ exn_msg e)]
          | Ok _ =>
              Called (CWrite a 1) ::
              match dst_write L file_path (export_profile a rd) a 1 with
              | Raise e => [Critical "Error" ("Error exporting data: " ++ exn_msg e)]
              | Ok _ =>
                  [Information "Success"
                     ("Data exported successfully to " ++ file_path ++ ".")]
              end
          end |}).
Proof.
  intros Hdata Htype Hrd Hpath. unfold export_displayed_data, export_body. run.
  rewrite Hdata. run. rewrite (bool_decide_eq_true_2 _ Hpath). run.
  rewrite Htype.
  rewrite (bool_decide_eq_false_2 (Some "raster" = Some "shapefile")) by discriminate.
  rewrite (bool_decide_eq_true_2 (Some "raster" = Some "raster")) by reflexivity.
  run. rewrite Hrd. run. fold (export_profile a rd).
  destruct (rasterio_create L file_path (export_profile a rd)) as [[]|e]; run.
  - destruct (dst_write L file_path (export_profile a rd) a 1) as [[]|e]; run;
      rewrite <- !app_assoc; reflexivity.
  - rewrite <- !app_assoc. reflexivity.
Qed.

(** C7. With no DisplayedArtifact ([last_displayed_data] is [None]) the
    export shows the error "No data available to export." and does
    nothing else: no save dialog, no file written, state unchanged. *)
Theorem export_without_artifact (w : World) (file_path : string) :
  last_displayed_data (self w) = None ->
  export_displayed_data L file_path w
  = (Ok tt,
     {| self := self w; heap := heap w;
        log := log w ++ [Critical "Error" "No data available to export."] |}).
Proof.
  intros Hnone. unfold export_displayed_data. run. rewrite Hnone. reflexivity.
Qed.

(** C8. Exporting a displayed array opens a GeoTIFF with one band whose
    CRS and transform are those of the raster held in [self.raster_data],
    and writes the array as band 1; no other transform enters the call. *)
Theorem export_raster_uses_loaded_georeference
    (w : World) (a : ndarray) (rd : DatasetReader) (file_path : string) :
  last_displayed_data (self w) = Some (ObjArray a) ->
  last_displayed_type (self w) = Some "raster" ->
  raster_data (self w) = Some rd ->
  file_path <> "" ->
  exists (p : Profile) (after : list event) (w' : World),
    export_displayed_data L file_path w = (Ok tt, w') /\
    self w' = self w /\
    log w' = log w ++ Asked "Save File" :: Called (CCreate file_path p) :: after /\
    p_driver p = "GTiff" /\ p_count p = 1 /\
    p_crs p = ds_crs rd /\ p_transform p = ds_transform rd /\
    (forall q path, In (Called (CCreate path q)) after -> False) /\
    (rasterio_create L file_path p = Ok tt ->
       exists rest, after = Called (CWrite a 1) :: rest).
Proof.
  intros Hdata Htype Hrd Hpath.
  eexists (export_profile a rd), _, _.
  split; [apply export_raster_run; eassumption|]. cbn [self log].
  do 6 (split; [reflexivity|]). split.
  - intros q path Hin.
    destruct (rasterio_create L file_path (export_profile a rd)) as [[]|e];
      [destruct (dst_write L file_path (export_profile a rd) a 1) as [[]|e]|];
      simpl in Hin; intuition discriminate.
  - intros Hok. rewrite Hok. eauto.
Qed.

(** The transform a clip returns never reaches the export: after the
    [try] block of [clip_raster] stored band 1, the export still opens
    the file with the transform of the loaded raster. *)
Lemma export_after_clip_body
    (w : World) (r : ref) (g : GeoDataFrame) (rd : DatasetReader)
    (band : ndarray) (rest : list ndarray) (out_transform : Affine)
    (file_path : string) :
  gdf (self w) = Some r ->
  heap w !! r = Some g ->
  raster_data (self w) = Some rd ->
  gdf_crs g = ds_crs rd ->
  rasterio_mask L rd (filter (fun geom => is_valid L geom = true) (geometries g))
    = Ok (band :: rest, out_transform) ->
  matplotlib_render L (ImageFigure band "viridis" "Clipped Raster") = Ok tt ->
  file_path <> "" ->
  exists w1 w2,
    clip_raster_body L w = (Ok tt, w1) /\
    export_displayed_data L file_path w1 = (Ok tt, w2) /\
    In (Called (CCreate file_path (export_profile band rd))) (log w2) /\
    p_transform (export_profile band rd) = ds_transform rd.
Proof.
  intros Hgdf Hobj Hrd Hcrs Hmask Hshow Hpath.
  do 2 eexists. split; [eapply clip_raster_body_stores_band; eassumption|].
  split; [apply (export_raster_run _ band rd); auto|].
  split; [|reflexivity]. cbn [log]. rewrite !in_app_iff. right. simpl. auto.
Qed.

End Exporting.

(** *** The claims on validation and on the stored layer *)

Lemma buffer_rejects_nonpositive_distance_witness :
  buffer_tool (Demo.lib true) (-1)%float true Demo.loaded
  = (Ok tt,
     {| self := self Demo.loaded; heap := heap Demo.loaded;
        log := log Demo.loaded ++
                 [Asked "Buffer Distance";
                  Critical "Error" "Invalid buffer distance."] |}).
Proof.
  apply (buffer_rejects_nonpositive_distance (Demo.lib true) Demo.loaded
           0%nat Demo.frame (-1)%float true); reflexivity.
Defined.

Lemma export_without_artifact_witness :
  export_displayed_data (Demo.lib true) "out.tif" Demo.fresh
  = (Ok tt,
     {| self := self Demo.fresh; heap := heap Demo.fresh;
        log := log Demo.fresh ++ [Critical "Error" "No data available to export."] |}).
Proof.
  apply (export_without_artifact (Demo.lib true) Demo.fresh "out.tif").
  reflexivity.
Defined.

Lemma export_raster_uses_loaded_georeference_witness :
  exists (p : Profile) (after : list event) (w' : World),
    export_displayed_data (Demo.lib true) "out.tif" Demo.displayed = (Ok tt, w') /\
    log w' = log Demo.displayed ++
               Asked "Save File" :: Called (CCreate "out.tif" p) :: after /\
    p_crs p = ds_crs Demo.raster /\ p_transform p = ds_transform Demo.raster.
Proof.
  destruct (export_raster_uses_loaded_georeference (Demo.lib true)
              Demo.displayed Demo.band Demo.raster "out.tif")
    as (p & after & w' & Hrun & _ & Hlog & _ & _ & Hcrs & Htr & _);
    [reflexivity | reflexivity | reflexivity | discriminate |].
  exists p, after, w'. auto.
Defined.

(** C5, as stated, fails: in [calculate_index] the band number 5 of a
    two-band raster is handed to the raster's [read] before anything is
    reported; the report is the caught IndexError. *)
Lemma index_band_reaches_read_before_report :
  calculate_index (Demo.lib true) "NDVI" 5 1 1 1 Demo.loaded
  = (Ok tt,
     {| self := self Demo.loaded; heap := heap Demo.loaded;
        log := [Asked "Red Band"; Asked "NIR Band"; Asked "Green Band";
                Asked "SWIR Band"; Called (CRead 5);
                Critical "Error" "Error calculating NDVI: band index out of range"] |}) /\
  report_precedes_calls
    [Asked "Red Band"; Asked "NIR Band"; Asked "Green Band";
     Asked "SWIR Band"; Called (CRead 5);
     Critical "Error" "Error calculating NDVI: band index out of range"]
  = false.
Proof. split; reflexivity. Qed.

(** C5, amended. With a raster loaded, [calculate_index] and
    [display_raster] always return to the event loop, and a failure
    during index computation (an invalid band number, a shape mismatch,
    anything a read or the helper raises) is caught and reported with its
    message, the window's attributes and the objects staying as they
    were; so is whatever else the [try] block raises. [display_raster]
    rejects a band number [<= 0] (or a cancelled dialog) with "Invalid
    band number." before any library call. [calculate_index] validates
    nothing before the library is called: a band number out of range is
    passed to the raster's [read], and the report is the IndexError
    raised there. *)
Theorem band_numbers_validated_by_the_read
    (L : Lib) (w : World) (rd : DatasetReader)
    (t : string) (rb nb gb sb : Z) :
  raster_data (self w) = Some rd ->
  (exists w', calculate_index L t rb nb gb sb w = (Ok tt, w')) /\
  (forall b ok, exists w', display_raster L b ok w = (Ok tt, w')) /\
  (forall b ok, b <= 0 \/ ok = false ->
     exists evs,
       display_raster L b ok w
       = (Ok tt, {| self := self w; heap := heap w; log := log w ++ evs |}) /\
       evs = [Asked "Select Band"; Critical "Error" "Invalid band number."] /\
       report_precedes_calls evs = true) /\
  (Exists (fun b => ~ band_in_range rd b) (bands_read t rb nb gb sb) ->
     exists evs b,
       calculate_index L t rb nb gb sb w
       = (Ok tt, {| self := self w; heap := heap w; log := log w ++ evs |}) /\
       report_precedes_calls evs = false /\
       In (Called (CRead b)) evs /\ ~ band_in_range rd b /\
       last evs = Some (Critical "Error"
                          ("Error calculating " ++ t ++ ": band index out of range"))) /\
  (forall e w1,
     index_branch t rb nb gb sb (after_band_prompts w) = (Raise e, w1) ->
     calculate_index L t rb nb gb sb w
     = (Ok tt,
        {| self := self w; heap := heap w;
           log := log w1 ++
             [Critical "Error"
                ("Error calculating " ++ t ++ ": " ++ exn_msg e)] |})) /\
  (forall e w1,
     calculate_index_body L t rb nb gb sb w = (Raise e, w1) ->
     calculate_index L t rb nb gb sb w
     = (Ok tt,
        {| self := self w1; heap := heap w1;
           log := log w1 ++
             [Critical "Error"
                ("Error calculating " ++ t ++ ": " ++ exn_msg e)] |})) /\
  (forall b1 b2 x1 x2 e,
     In t ["NDVI"; "NDWI"; "NDBI"] ->
     bands_read t rb nb gb sb = [b1; b2] ->
     ds_read rd b1 = Ok x1 ->
     ds_read rd b2 = Ok x2 ->
     index_helper t x1 x2 = Raise e ->
     calculate_index L t rb nb gb sb w
     = (Ok tt,
        {| self := self w; heap := heap w;
           log := log w ++
             [Asked "Red Band"; Asked "NIR Band"; Asked "Green Band";
              Asked "SWIR Band"; Called (CRead b1); Called (CRead b2);
              Critical "Error"
                ("Error calculating " ++ t ++ ": " ++ exn_msg e)] |})).
Proof.
  intros Hrd. split; [apply calculate_index_returns|].
  split; [intros b ok; apply display_raster_returns|]. split; [|split; [|split; [|split]]].
  - intros b ok Hbad. eexists. split; [|split; reflexivity].
    apply (display_raster_rejects L b ok w rd Hrd Hbad).
  - apply calculate_index_out_of_range, Hrd.
  - intros e w1. apply (index_failure_reported L t rb nb gb sb w rd e w1 Hrd).
  - intros e w1. apply (calculate_index_reports L t rb nb gb sb w rd e w1 Hrd).
  - intros b1 b2 x1 x2 e Ht Hbands H1 H2 Hcalc.
    unfold calculate_index, calculate_index_body, index_branch.
    destruct Ht as [<-|[<-|[<-|[]]]]; injection Hbands as <- <-;
      cbv [index_helper] in Hcalc;
      cbn [String.eqb Ascii.eqb Bool.eqb] in Hcalc |- *; run;
      repeat (first [rewrite Hrd | rewrite H1 | rewrite H2 | rewrite Hcalc]; run);
      rewrite <- !app_assoc; reflexivity.
Qed.

Lemma band_numbers_validated_by_the_read_witness :
  exists evs b,
    calculate_index (Demo.lib true) "NDWI" 1 7 1 1 Demo.loaded
    = (Ok tt, {| self := self Demo.loaded; heap := heap Demo.loaded;
                 log := log Demo.loaded ++ evs |}) /\
    report_precedes_calls evs = false /\
    In (Called (CRead b)) evs /\ ~ band_in_range Demo.raster b.
Proof.
  destruct (band_numbers_validated_by_the_read (Demo.lib true) Demo.loaded
              Demo.raster "NDWI" 1 7 1 1 eq_refl) as (_ & _ & _ & H & _).
  destruct H as (evs & b & Hrun & Hcall & Hin & Hout & _).
  - right. left. unfold band_in_range. simpl. lia.
  - exists evs, b. auto.
Defined.




End GuiFacts.


(** ** Sessions: what the handlers do beyond their guards *)

Module SessionFacts.

Import IndexMath Gui Props SessionProps GuiFacts IndexMathFacts.

Ltac unfold_handlers H :=
  unfold upload_raster, upload_shapefile, calculate_index,
    calculate_index_body, index_branch, buffer_tool, buffer_tool_body,
    clip_raster, clip_raster_body, display_raster, visualize_shapefile,
    visualize_shapefile_on_gui, export_displayed_data, export_body,
    connect_to_postgis, import_and_visualize_from_postgis in H.

Lemma wf_lookup (w : World) (r : ref) :
  wf w -> gdf (self w) = Some r -> exists g, heap w !! r = Some g.
Proof.
  intros [Hg _] Hr. apply lookup_lt_is_Some_2. apply Hg, Hr.
Qed.

Section Uploads.

Variable L : Lib.

(** X1. [upload_raster] replaces nothing unless the file opens. A
    cancelled dialog does nothing; a RasterioIOError is reported as
    "Invalid raster file." with the window's attributes as they were; an
    exception of any other class is not caught and leaves the handler,
    the attributes again as they were. *)
Theorem upload_raster_failure (w : World) (file_name : string) :
  (file_name = "" ->
     upload_raster L file_name w
     = (Ok tt, {| self := self w; heap := heap w;
                  log := log w ++ [Asked "Select Raster File"] |})) /\
  (forall e,
     file_name <> "" -> rasterio_open L file_name = Raise e ->
     upload_raster L file_name w
     = (if decide (exn_cls e = RasterioIOError) then Ok tt else Raise e,
        {| self := self w; heap := heap w;
           log := log w ++
             [Asked "Select Raster File"; Called (CRasterioOpen file_name)] ++
             (if decide (exn_cls e = RasterioIOError)
              then [Critical "Error" "Invalid raster file."] else []) |})).
Proof.
  split.
  - intros ->. reflexivity.
  - intros e Hname Hopen. unfold upload_raster. run.
    rewrite (bool_decide_eq_true_2 _ Hname). run. rewrite Hopen. run.
    destruct (decide (exn_cls e = RasterioIOError)); run;
      rewrite <- ?app_assoc; reflexivity.
Qed.

(** X2. A raster that opens replaces the loaded raster and its path, and
    nothing else: the vector layer, the connection and the
    DisplayedArtifact (still derived from the previous raster, if any)
    stay. *)
Theorem upload_raster_success
    (w : World) (file_name : string) (rd : DatasetReader) :
  file_name <> "" ->
  rasterio_open L file_name = Ok rd ->
  exists w',
    upload_raster L file_name w = (Ok tt, w') /\
    raster_data (self w') = Some rd /\
    raster_path (self w') = Some file_name /\
    gdf (self w') = gdf (self w) /\
    shapefile_path (self w') = shapefile_path (self w) /\
    db_connection (self w') = db_connection (self w) /\
    last_displayed_data (self w') = last_displayed_data (self w) /\
    last_displayed_type (self w') = last_displayed_type (self w) /\
    heap w' = heap w /\
    log w' = log w ++ [Asked "Select Raster File"; Called (CRasterioOpen file_name);
                       Information "Success" "Raster uploaded successfully!"].
Proof.
  intros Hname Hopen. unfold upload_raster. run.
  rewrite (bool_decide_eq_true_2 _ Hname). run. rewrite Hopen. run.
  eexists. split; [reflexivity|]. cbn [self heap log].
  repeat split. rewrite <- !app_assoc. reflexivity.
Qed.

(** X3. [upload_shapefile] catches every exception of the read: the
    message is shown and the window's attributes and the objects are as
    they were. A file that reads becomes a new object, to which
    [self.gdf] is bound; the objects that existed, the previous layer
    among them, are not touched, and the DisplayedArtifact stays. *)
Theorem upload_shapefile_outcomes (w : World) (file_name : string) :
  file_name <> "" ->
  match gpd_read_file L file_name with
  | Raise e =>
      upload_shapefile L file_name w
      = (Ok tt, {| self := self w; heap := heap w;
                   log := log w ++
                     [Asked "Select Shapefile"; Called (CReadFile file_name);
                      Critical "Error" ("Error loading shapefile: " ++ exn_msg e)] |})
  | Ok g =>
      upload_shapefile L file_name w
      = (Ok tt,
         {| self := set_shapefile_path (Some file_name)
                      (set_gdf (Some (length (heap w))) (self w));
            heap := heap w ++ [g];
            log := log w ++
              [Asked "Select Shapefile"; Called (CReadFile file_name);
               Information "Success" "Shapefile uploaded successfully!"] |})
  end.
Proof.
  intros Hname. unfold upload_shapefile. run.
  rewrite (bool_decide_eq_true_2 _ Hname). run.
  destruct (gpd_read_file L file_name) as [g|e]; run;
    rewrite <- !app_assoc; reflexivity.
Qed.

End Uploads.

Section Indices.

Variable L : Lib.

(** The run of [calculate_index] once both bands are read and the
    helper returned. *)
Lemma calculate_index_run
    (w : World) (rd : DatasetReader) (t : string) (rb nb gb sb b1 b2 : Z)
    (x1 x2 result : ndarray) (calc : ndarray -> ndarray -> res ndarray) :
  raster_data (self w) = Some rd ->
  index_branch t rb nb gb sb
  = (x <- read_band b1 ;; y <- read_band b2 ;;
     index_result <- lift (calc x y) ;; ret (Some index_result))%gui ->
  ds_read rd b1 = Ok x1 ->
  ds_read rd b2 = Ok x2 ->
  calc x1 x2 = Ok result ->
  exists w',
    calculate_index L t rb nb gb sb w = (Ok tt, w') /\
    self w' = set_last_displayed_type (Some "raster")
                (set_last_displayed_data (Some (ObjArray result)) (self w)) /\
    heap w' = heap w.
Proof.
  intros Hrd Hbranch H1 H2 Hcalc.
  unfold calculate_index, calculate_index_body. rewrite Hbranch. run.
  repeat (first [rewrite Hrd | rewrite H1 | rewrite H2 | rewrite Hcalc]; run).
  destruct (matplotlib_render L (ImageFigure result "viridis" (t ++ " Image")))
    as [[]|e]; run; eexists; (split; [reflexivity|]); split; reflexivity.
Qed.

(** X4. Index computation end to end. For an index type of the menu,
    with both band numbers in range and the two bands of one shape, the
    handler returns and the DisplayedArtifact becomes a float64 array of
    that shape, tagged "raster", whose pixels are the normalized
    difference of the two bands read (NIR minus red over their sum for
    NDVI, first band minus NIR over their sum for NDWI and NDBI); the
    loaded raster and the vector layer stay. *)
Theorem calculate_index_displays_normalized_difference
    (w : World) (rd : DatasetReader) (t : string) (rb nb gb sb b1 b2 : Z)
    (x1 x2 : ndarray) (r c : nat) :
  raster_data (self w) = Some rd ->
  In t menu_index_types ->
  bands_read t rb nb gb sb = [b1; b2] ->
  ds_read rd b1 = Ok x1 ->
  ds_read rd b2 = Ok x2 ->
  has_shape r c (astype_float x1) ->
  has_shape r c (astype_float x2) ->
  exists out w',
    calculate_index L t rb nb gb sb w = (Ok tt, w') /\
    last_displayed_data (self w') = Some (ObjArray (FloatArr float64 out)) /\
    last_displayed_type (self w') = Some "raster" /\
    raster_data (self w') = Some rd /\
    gdf (self w') = gdf (self w) /\
    has_shape r c out /\
    forall i j u v,
      cell (astype_float (index_operands t x1 x2).1) i j = Some u ->
      cell (astype_float (index_operands t x1 x2).2) i j = Some v ->
      cell out i j = Some (normalized_difference u v).
Proof.
  intros Hrd Ht Hbands H1 H2 S1 S2.
  assert (Hgoal : forall calc out,
    index_branch t rb nb gb sb
    = (x <- read_band b1 ;; y <- read_band b2 ;;
       index_result <- lift (calc x y) ;; ret (Some index_result))%gui ->
    calc x1 x2 = Ok (FloatArr float64 out) ->
    has_shape r c out ->
    (forall i j u v,
      cell (astype_float (index_operands t x1 x2).1) i j = Some u ->
      cell (astype_float (index_operands t x1 x2).2) i j = Some v ->
      cell out i j = Some (normalized_difference u v)) ->
    exists out w',
      calculate_index L t rb nb gb sb w = (Ok tt, w') /\
      last_displayed_data (self w') = Some (ObjArray (FloatArr float64 out)) /\
      last_displayed_type (self w') = Some "raster" /\
      raster_data (self w') = Some rd /\
      gdf (self w') = gdf (self w) /\
      has_shape r c out /\
      forall i j u v,
        cell (astype_float (index_operands t x1 x2).1) i j = Some u ->
        cell (astype_float (index_operands t x1 x2).2) i j = Some v ->
        cell out i j = Some (normalized_difference u v)).
  { intros calc out Hbranch Hcalc Hshape Hcells.
    destruct (calculate_index_run w rd t rb nb gb sb b1 b2 x1 x2 _ calc
                Hrd Hbranch H1 H2 Hcalc) as (w' & Hrun & Hself & _).
    exists out, w'. rewrite Hself. cbn. auto 10. }
  destruct Ht as [<-|[<-|[<-|[]]]]; injection Hbands as <- <-.
  - destruct (normalized_difference_array r c _ _ S2 S1) as (out & E & S & Hc).
    apply (Hgoal calculate_ndvi out); [reflexivity | exact E | exact S | exact Hc].
  - destruct (normalized_difference_array r c _ _ S1 S2) as (out & E & S & Hc).
    apply (Hgoal calculate_ndbi out); [reflexivity | exact E | exact S | exact Hc].
  - destruct (normalized_difference_array r c _ _ S1 S2) as (out & E & S & Hc).
    apply (Hgoal calculate_ndwi out); [reflexivity | exact E | exact S | exact Hc].
Qed.

(** X5. Of the four band numbers asked for, [calculate_index] uses two:
    runs that agree on the bands their index type reads are the same
    run, whatever was answered to the other two prompts. *)
Theorem calculate_index_uses_two_bands
    (t : string) (rb nb gb sb rb' nb' gb' sb' : Z) (w : World) :
  bands_read t rb nb gb sb = bands_read t rb' nb' gb' sb' ->
  calculate_index L t rb nb gb sb w = calculate_index L t rb' nb' gb' sb' w.
Proof.
  unfold bands_read, calculate_index, calculate_index_body, index_branch.
  intros H.
  destruct (String.eqb t "NDVI");
    [|destruct (String.eqb t "NDWI"); [|destruct (String.eqb t "NDBI")]];
    try (injection H as <- <-); reflexivity.
Qed.

(** X6. An index type that is none of "NDVI", "NDWI", "NDBI" binds no
    result: the UnboundLocalError is caught and reported, no band is
    read, and the window's attributes are as they were. *)
Theorem calculate_index_unknown_type
    (w : World) (rd : DatasetReader) (t : string) (rb nb gb sb : Z) :
  raster_data (self w) = Some rd ->
  ~ In t menu_index_types ->
  calculate_index L t rb nb gb sb w
  = (Ok tt,
     {| self := self w; heap := heap w;
        log := log w ++
          [Asked "Red Band"; Asked "NIR Band"; Asked "Green Band";
           Asked "SWIR Band";
           Critical "Error"
             ("Error calculating " ++ t ++
              ": local variable 'index_result' referenced before assignment")] |}).
Proof.
  intros Hrd Ht. unfold calculate_index, calculate_index_body, index_branch.
  assert (E1 : String.eqb t "NDVI" = false)
    by (apply String.eqb_neq; intros ->; apply Ht; simpl; auto).
  assert (E2 : String.eqb t "NDWI" = false)
    by (apply String.eqb_neq; intros ->; apply Ht; simpl; auto).
  assert (E3 : String.eqb t "NDBI" = false)
    by (apply String.eqb_neq; intros ->; apply Ht; simpl; auto).
  rewrite E1, E2, E3. run. rewrite Hrd. run.
  rewrite <- !app_assoc. reflexivity.
Qed.

(** X7. [display_raster] with a band number in range displays that very
    band of the raster, values and dtype as stored, tagged "raster". A
    band number above the band count passes the [<= 0] check: the read is
    called, its IndexError is caught and reported, and the window's
    attributes are as they were. *)
Theorem display_raster_band
    (w : World) (rd : DatasetReader) (band_index : Z) :
  raster_data (self w) = Some rd ->
  (band_in_range rd band_index ->
     exists band w',
       ds_bands rd !! Z.to_nat (band_index - 1) = Some band /\
       display_raster L band_index true w = (Ok tt, w') /\
       last_displayed_data (self w') = Some (ObjArray band) /\
       last_displayed_type (self w') = Some "raster" /\
       heap w' = heap w /\ gdf (self w') = gdf (self w)) /\
  (Z.of_nat (length (ds_bands rd)) < band_index ->
     display_raster L band_index true w
     = (Ok tt,
        {| self := self w; heap := heap w;
           log := log w ++
             [Asked "Select Band"; Called (CRead band_index);
              Critical "Error" "Error displaying raster: band index out of range"] |})).
Proof.
  intros Hrd. split.
  - intros Hin. destruct (ds_read_in_range rd band_index Hin) as [band Hread].
    assert (Hband : ds_bands rd !! Z.to_nat (band_index - 1) = Some band).
    { unfold ds_read in Hread.
      destruct ((1 <=? band_index) && (band_index <=? Z.of_nat (length (ds_bands rd))));
        [|discriminate].
      destruct (ds_bands rd !! Z.to_nat (band_index - 1)); [|discriminate].
      congruence. }
    unfold display_raster. run. rewrite ?Hrd. run.
    replace (band_index <=? 0) with false
      by (symmetry; apply Z.leb_gt; destruct Hin; lia).
    repeat (first [rewrite Hrd | rewrite Hread | progress cbn [orb negb]]; run).
    destruct (matplotlib_render L _) as [[]|e]; run;
      exists band; eexists; (split; [exact Hband|]); (split; [reflexivity|]);
      cbn; auto.
  - intros Hbig. unfold display_raster. run. rewrite ?Hrd. run.
    replace (band_index <=? 0) with false by (symmetry; apply Z.leb_gt; lia).
    assert (Hread : ds_read rd band_index
                    = Raise (Exn IndexError "band index out of range"))
      by (apply ds_read_out_of_range; unfold band_in_range; lia).
    repeat (first [rewrite Hrd | rewrite Hread | progress cbn [orb negb]]; run).
    rewrite <- !app_assoc. reflexivity.
Qed.

End Indices.

Section Guards.

Variable L : Lib.

(** X8. The handlers that check their input with [not x] or [x is None]
    report what is missing and do nothing else: nothing is asked, no
    library is called, and the window's attributes stay. This holds for
    index computation and raster display without a raster, for both
    vector visualisations without a shapefile path, and for the PostGIS
    import without a connection. *)
Theorem missing_inputs_are_reported (w : World) :
  let reported text :=
    (Ok tt, {| self := self w; heap := heap w;
               log := log w ++ [Critical "Error" text] |}) in
  (raster_data (self w) = None ->
     (forall t rb nb gb sb,
        calculate_index L t rb nb gb sb w = reported "Please upload a raster first.") /\
     (forall b ok, display_raster L b ok w = reported "No raster uploaded.")) /\
  (shapefile_path (self w) = None \/ shapefile_path (self w) = Some "" ->
     visualize_shapefile L w = reported "No shapefile uploaded." /\
     visualize_shapefile_on_gui L w = reported "No shapefile uploaded.") /\
  (db_connection (self w) = None ->
     forall t ok,
       import_and_visualize_from_postgis L t ok w
       = reported "Please connect to the PostGIS database first.").
Proof.
  cbv zeta. split; [|split].
  - intros Hrd. split; intros; unfold calculate_index, display_raster; run;
      rewrite Hrd; reflexivity.
  - intros Hpath. unfold visualize_shapefile, visualize_shapefile_on_gui. run.
    destruct Hpath as [-> | ->]; split; reflexivity.
  - intros Hconn t ok. unfold import_and_visualize_from_postgis. run.
    rewrite Hconn. reflexivity.
Qed.

(** X9. Only three guards let an exception out of a handler. In a
    session whose references are sound, an exception that leaves [handle]
    is the AttributeError of [buffer_tool] without a layer, the
    ValueError of [clip_raster] with a raster and a layer, or an
    exception of [rasterio.open] that is not a RasterioIOError; in each
    case the window's attributes and the objects are as they were. Every
    other handler returns to the event loop. *)
Theorem unhandled_exceptions (a : action) (w w' : World) (e : exn) :
  wf w ->
  handle L a w = (Raise e, w') ->
  self w' = self w /\ heap w' = heap w /\
  ((exists d ok, a = BufferTool d ok /\ gdf (self w) = None /\
                 exn_cls e = AttributeError) \/
   (a = ClipRaster /\ raster_data (self w) <> None /\ gdf (self w) <> None /\
    exn_cls e = ValueError) \/
   (exists f, a = UploadRaster f /\ rasterio_open L f = Raise e /\
              exn_cls e <> RasterioIOError)).
Proof.
  intros Hwf H. destruct a; cbn [handle] in H; unfold_handlers H;
    branches H; try discriminate H; injection H as <- <-;
    cbn [self heap]; (split; [reflexivity|]); (split; [reflexivity|]).
  - right. right. eexists. split; [reflexivity|]. split; assumption.
  - exfalso.
    match goal with
    | Hr : gdf (self w) = Some ?r, Hn : heap w !! ?r = None |- _ =>
        destruct (wf_lookup w r Hwf Hr) as [g Hg]; congruence
    end.
  - left. eauto.
  - right. left. repeat split; congruence.
Qed.

End Guards.



Section Buffering.

Variable L : Lib.


(** X11. Two ways the buffer stops. A cancelled distance dialog is
    answered like an invalid distance, whatever number the dialog held.
    A geometry whose buffer raises makes the handler report "An error
    occurred: ..." and print the same line; the copy made before is
    dropped, and the stored layer and the DisplayedArtifact are as they
    were. *)
Theorem buffer_tool_stops
    (w : World) (r : ref) (g : GeoDataFrame) (distance : float) :
  gdf (self w) = Some r ->
  heap w !! r = Some g ->
  frame_empty g = false ->
  buffer_tool L distance false w
  = (Ok tt,
     {| self := self w; heap := heap w;
        log := log w ++ [Asked "Buffer Distance";
                         Critical "Error" "Invalid buffer distance."] |}) /\
  (forall e,
     PrimFloat.leb distance 0 = false ->
     map_res (fun geom => geometry_buffer L geom distance) (geometries g) = Raise e ->
     buffer_tool L distance true w
     = (Ok tt,
        {| self := self w; heap := heap w ++ [g];
           log := log w ++
             [Asked "Buffer Distance"; Called CCopy; Called (CBuffer distance);
              Critical "Error" ("An error occurred: " ++ exn_msg e);
              Printed ("An error occurred: " ++ exn_msg e)] |})).
Proof.
  intros Hgdf Hobj Hrows. split.
  - unfold buffer_tool, buffer_tool_body. run.
    repeat (first [rewrite Hgdf | rewrite Hobj | rewrite Hrows]; run).
    cbn [orb]. run. rewrite <- ?app_assoc. reflexivity.
  - intros e Hd Hbuf. unfold buffer_tool, buffer_tool_body. run.
    repeat (first [rewrite Hgdf | rewrite Hobj | rewrite Hrows | rewrite Hd
                  | rewrite heap_fresh_lookup | rewrite Hbuf
                  | progress cbn [orb] ]; run).
    rewrite <- ?app_assoc. reflexivity.
Qed.

End Buffering.

Section Exports.

Variable L : Lib.

(** The run of [export_displayed_data] on a displayed layer. *)
Lemma export_frame_run
    (w : World) (r : ref) (g : GeoDataFrame) (file_path : string) :
  last_displayed_data (self w) = Some (ObjFrame r) ->
  last_displayed_type (self w) = Some "shapefile" ->
  heap w !! r = Some g ->
  file_path <> "" ->
  export_displayed_data L file_path w
  = (Ok tt,
     {| self := self w; heap := heap w;
        log := log w ++
          [Asked "Save File"; Called (CToFile file_path "ESRI Shapefile");
           match to_file L g file_path "ESRI Shapefile" with
           | Ok _ =>
               Information "Success"
                 ("Data exported successfully to " ++ file_path ++ ".")
           | Raise e => Critical "Error" ("Error exporting data: " ++ exn_msg e)
           end] |}).
Proof.
  intros Hdata Htype Hobj Hpath. unfold export_displayed_data, export_body. run.
  rewrite Hdata. run. rewrite (bool_decide_eq_true_2 _ Hpath). run.
  rewrite Htype.
  rewrite (bool_decide_eq_true_2 (Some "shapefile" = Some "shapefile")) by reflexivity.
  run. rewrite Hobj. run.
  destruct (to_file L g file_path "ESRI Shapefile") as [[]|e]; run;
    rewrite <- ?app_assoc; reflexivity.
Qed.

(** X12. The export is read-only and always returns: whatever is
    displayed, whatever path is chosen and whatever the libraries do, the
    handler returns to the event loop with the window's attributes and
    the objects as they were. *)
Theorem export_changes_nothing (file_path : string) (w w' : World) (r : res unit) :
  export_displayed_data L file_path w = (r, w') ->
  r = Ok tt /\ self w' = self w /\ heap w' = heap w.
Proof.
  intros H. unfold export_displayed_data, export_body in H.
  branches H; injection H as <- <-;
    repeat match goal with u : unit |- _ => destruct u end;
    cbn [self heap]; auto.
Qed.

(** X13. A cancelled save dialog (an empty path) ends the export with
    the note "Save operation canceled.": no file is opened or written. *)
Theorem export_cancelled (w : World) (data : pyobj) :
  last_displayed_data (self w) = Some data ->
  export_displayed_data L "" w
  = (Ok tt,
     {| self := self w; heap := heap w;
        log := log w ++ [Asked "Save File";
                         Information "Canceled" "Save operation canceled."] |}).
Proof.
  intros Hdata. unfold export_displayed_data, export_body. run.
  rewrite Hdata. run.
  rewrite (bool_decide_eq_false_2 ("" <> "")) by (intros H; apply H; reflexivity).
  run. rewrite <- ?app_assoc. reflexivity.
Qed.

(** X14. In a coherent session the export writes what is displayed, in
    the format of its tag: a displayed layer goes to [to_file] with the
    driver "ESRI Shapefile", a displayed array to a one-band GeoTIFF
    with the georeference of the loaded raster. The branches that raise
    AttributeError (a tag that does not fit the object, no raster) are
    not taken. *)
Theorem export_writes_the_artifact
    (w : World) (data : pyobj) (file_path : string) :
  wf w ->
  coherent w ->
  last_displayed_data (self w) = Some data ->
  file_path <> "" ->
  exists c rest,
    export_displayed_data L file_path w
    = (Ok tt, {| self := self w; heap := heap w;
                 log := log w ++ Asked "Save File" :: Called c :: rest |}) /\
    match data with
    | ObjFrame r =>
        exists g, heap w !! r = Some g /\
                  c = CToFile file_path "ESRI Shapefile" /\
                  rest = [match to_file L g file_path "ESRI Shapefile" with
                          | Ok _ =>
                              Information "Success"
                                ("Data exported successfully to " ++ file_path ++ ".")
                          | Raise e =>
                              Critical "Error" ("Error exporting data: " ++ exn_msg e)
                          end]
    | ObjArray a =>
        exists rd, raster_data (self w) = Some rd /\
                   c = CCreate file_path (export_profile a rd)
    end.
Proof.
  intros [_ Hd] Hco Hdata Hpath. unfold coherent in Hco. rewrite Hdata in Hco.
  destruct data as [a|r].
  - destruct Hco as [Htype Hrd].
    destruct (raster_data (self w)) as [rd|] eqn:Erd; [|congruence].
    do 2 eexists. split.
    + apply (export_raster_run L w a rd file_path Hdata Htype Erd Hpath).
    + exists rd. auto.
  - destruct (lookup_lt_is_Some_2 (heap w) r (Hd r Hdata)) as [g Hg].
    do 2 eexists. split.
    + apply (export_frame_run w r g file_path Hdata Hco Hg Hpath).
    + exists g. auto.
Qed.


End Exports.

Section Invariants.

Variable L : Lib.

Lemma handle_coherent a w r w' :
  handle L a w = (r, w') -> coherent w -> coherent w'.
Proof.
  intros H Hco. destruct a; cbn [handle] in H; unfold_handlers H;
    branches H; injection H as <- <-;
    unfold coherent in *;
    cbn [self raster_data last_displayed_data last_displayed_type
         set_gdf set_raster_data set_raster_path set_shapefile_path
         set_db_connection set_last_displayed_data set_last_displayed_type
         fmap option_fmap option_map] in *;
    try exact Hco;
    try (split; [reflexivity | congruence]);
    try reflexivity;
    try (destruct (last_displayed_data (self w)) as [[?|?]|];
         first [ exact Hco | destruct Hco; split; [assumption | discriminate] ]).
Qed.

(** X16. The tag always fits the artifact. Along any sequence of
    actions, from a coherent session (the one [__init__] leaves, for
    one), [last_displayed_type] is "raster" exactly when an array is
    displayed and "shapefile" exactly when a layer is, a displayed array
    comes with a loaded raster, and no tag is set without an artifact. *)
Theorem sessions_stay_coherent (actions : list action) (w : World) :
  coherent w -> coherent (event_loop L actions w).2.
Proof.
  revert w. induction actions as [|a rest IH]; intros w Hco; [exact Hco|].
  cbn [event_loop]. destruct (handle L a w) as [[u|e] w'] eqn:H.
  - apply IH. exact (handle_coherent a w _ w' H Hco).
  - exact (handle_coherent a w _ w' H Hco).
Qed.

Lemma still_loaded_refl s : still_loaded s s.
Proof. unfold still_loaded. tauto. Qed.

Lemma still_loaded_trans s1 s2 s3 :
  still_loaded s1 s2 -> still_loaded s2 s3 -> still_loaded s1 s3.
Proof. unfold still_loaded. tauto. Qed.

Lemma handle_still_loaded a w r w' :
  handle L a w = (r, w') -> still_loaded (self w) (self w').
Proof.
  intros H. destruct a; cbn [handle] in H; unfold_handlers H;
    branches H; injection H as <- <-;
    unfold still_loaded;
    cbn [self raster_path shapefile_path raster_data gdf db_connection
         last_displayed_data last_displayed_type
         set_gdf set_raster_data set_raster_path set_shapefile_path
         set_db_connection set_last_displayed_data set_last_displayed_type
         fmap option_fmap option_map];
    repeat split; intros; first [ assumption | discriminate | congruence ].
Qed.

(** X17. Nothing is ever unloaded. Along any sequence of actions, an
    attribute of the window that holds something (a raster, a layer, a
    connection, an artifact, a path) holds something afterwards: handlers
    replace, none resets to [None]. *)
Theorem nothing_is_unloaded (actions : list action) (w : World) :
  still_loaded (self w) (self (event_loop L actions w).2).
Proof.
  revert w. induction actions as [|a rest IH]; intros w;
    [apply still_loaded_refl|].
  cbn [event_loop]. destruct (handle L a w) as [[u|e] w'] eqn:H.
  - eapply still_loaded_trans; [exact (handle_still_loaded a w _ w' H) | apply IH].
  - exact (handle_still_loaded a w _ w' H).
Qed.

End Invariants.

Section Database.

Variable L : Lib.

(** X18. [connect_to_postgis] asks its four questions whatever is
    answered, then connects. A connection that fails is reported and the
    connection held before, if any, is kept; one that succeeds replaces
    it. Nothing else changes. *)
Theorem connect_to_postgis_outcomes
    (w : World) (host dbname user password : string) :
  let asked := [Asked "Host"; Asked "Database Name"; Asked "Username";
                Asked "Password"; Called (CConnect host dbname user)] in
  match psycopg2_connect L host dbname user password with
  | Raise e =>
      connect_to_postgis L host dbname user password w
      = (Ok tt, {| self := self w; heap := heap w;
                   log := log w ++ asked ++
                     [Critical "Error" ("Error connecting to database: " ++ exn_msg e)] |})
  | Ok conn =>
      connect_to_postgis L host dbname user password w
      = (Ok tt, {| self := set_db_connection (Some conn) (self w); heap := heap w;
                   log := log w ++ asked ++
                     [Information "Success"
                        "Connected to PostGIS database successfully!"] |})
  end.
Proof.
  cbv zeta. unfold connect_to_postgis. run.
  destruct (psycopg2_connect L host dbname user password) as [conn|e]; run;
    rewrite <- ?app_assoc; reflexivity.
Qed.

(** X19. With a connection open, an empty table name or a cancelled
    dialog is rejected with "Invalid table name." before any query is
    sent; the window's attributes stay. *)
Theorem import_rejects_empty_table_name
    (w : World) (conn : Connection) (table_name : string) (ok : bool) :
  db_connection (self w) = Some conn ->
  table_name = "" \/ ok = false ->
  import_and_visualize_from_postgis L table_name ok w
  = (Ok tt,
     {| self := self w; heap := heap w;
        log := log w ++ [Asked "Table Name";
                         Critical "Error" "Invalid table name."] |}).
Proof.
  intros Hconn Hbad. unfold import_and_visualize_from_postgis. run.
  rewrite Hconn. run.
  replace (negb ok || negb (bool_decide (table_name <> ""))) with true.
  - run. rewrite <- ?app_assoc. reflexivity.
  - symmetry. apply orb_true_iff. destruct Hbad as [-> | ->].
    + right. rewrite (bool_decide_eq_false_2 ("" <> "")); [reflexivity|].
      intros H. apply H. reflexivity.
    + left. reflexivity.
Qed.

(** The run of the import up to the centroids. *)
Lemma import_reads_table
    (w : World) (conn : Connection) (table_name : string) (g : GeoDataFrame)
    (r : res unit) (w' : World) :
  db_connection (self w) = Some conn ->
  table_name <> "" ->
  read_postgis L ("SELECT * FROM " ++ table_name) conn = Ok g ->
  import_and_visualize_from_postgis L table_name true w = (r, w') ->
  r = Ok tt /\
  exists r',
    gdf (self w') = Some r' /\ heap w' !! r' = Some (imported g) /\
    (forall i x, heap w !! i = Some x -> heap w' !! i = Some x) /\
    (last_displayed_data (self w') = last_displayed_data (self w) \/
     last_displayed_data (self w') = Some (ObjFrame r') /\
     last_displayed_type (self w') = Some "shapefile") /\
    In (Called (CReadPostgis ("SELECT * FROM " ++ table_name))) (log w').
Proof.
  intros Hconn Hname Hread H.
  unfold import_and_visualize_from_postgis in H. run_in H.
  rewrite Hconn in H. run_in H.
  rewrite (bool_decide_eq_true_2 _ Hname) in H. cbn [negb orb] in H. run_in H.
  rewrite Hread in H. run_in H. rewrite heap_fresh_lookup in H. run_in H.
  unfold imported.
  destruct (gdf_crs g) as [crs|] eqn:Hcrs; run_in H.
  - rewrite heap_fresh_lookup in H. run_in H.
    branches H; injection H as <- <-;
      repeat match goal with u : unit |- _ => destruct u end;
      (split; [reflexivity|]); exists (length (heap w));
      cbn [self heap log gdf last_displayed_data last_displayed_type
           set_gdf set_last_displayed_data set_last_displayed_type
           fmap option_fmap option_map];
      (split; [reflexivity|]); (split; [apply heap_fresh_lookup|]);
      (split; [intros i x Hx; apply lookup_app_l_Some, Hx|]);
      (split; [auto|]); rewrite !in_app_iff; simpl; tauto.
  - rewrite heap_fresh_lookup in H. run_in H.
    branches H; injection H as <- <-;
      repeat match goal with u : unit |- _ => destruct u end;
      (split; [reflexivity|]); exists (length (heap w ++ [g]));
      cbn [self heap log gdf last_displayed_data last_displayed_type
           set_gdf set_last_displayed_data set_last_displayed_type
           fmap option_fmap option_map];
      (split; [reflexivity|]); (split; [apply heap_fresh_lookup|]);
      (split; [intros i x Hx; do 2 apply lookup_app_l_Some; exact Hx|]);
      (split; [auto|]); rewrite !in_app_iff; simpl; tauto.
Qed.

(** X20. The import binds [self.gdf] before it looks at the rows. A
    table that reads always replaces the stored layer by the table (CRS
    EPSG:4326 when the table has none), a new object, also when a later
    step fails and is reported; the handler returns, the objects that
    existed are untouched, and the DisplayedArtifact is either left as it
    was or is that same new object, tagged "shapefile". The query sent
    is "SELECT * FROM " followed by the table name as typed. *)
Theorem import_replaces_the_stored_layer
    (w : World) (conn : Connection) (table_name : string) (g : GeoDataFrame)
    (r : res unit) (w' : World) :
  db_connection (self w) = Some conn ->
  table_name <> "" ->
  read_postgis L ("SELECT * FROM " ++ table_name) conn = Ok g ->
  import_and_visualize_from_postgis L table_name true w = (r, w') ->
  r = Ok tt /\
  exists r',
    gdf (self w') = Some r' /\ heap w' !! r' = Some (imported g) /\
    kept w w' /\
    (last_displayed_data (self w') = last_displayed_data (self w) \/
     last_displayed_data (self w') = Some (ObjFrame r') /\
     last_displayed_type (self w') = Some "shapefile") /\
    In (Called (CReadPostgis ("SELECT * FROM " ++ table_name))) (log w').
Proof. apply import_reads_table. Qed.

End Database.

Section Vectors.

Variable L : Lib.

(** X21. A table without rows. The import has bound [self.gdf] to the
    empty layer when taking the first centroid fails; the failure is
    caught and reported, the DisplayedArtifact is left as it was, and a
    buffer asked for next answers "Please upload a shapefile first.",
    the layer loaded before the import being gone. *)
Theorem import_of_empty_table
    (w : World) (conn : Connection) (table_name : string) (g : GeoDataFrame) :
  db_connection (self w) = Some conn ->
  table_name <> "" ->
  read_postgis L ("SELECT * FROM " ++ table_name) conn = Ok g ->
  gdf_rows g = [] ->
  exists w' r',
    import_and_visualize_from_postgis L table_name true w = (Ok tt, w') /\
    gdf (self w') = Some r' /\ heap w' !! r' = Some (imported g) /\
    last_displayed_data (self w') = last_displayed_data (self w) /\
    last_displayed_type (self w') = last_displayed_type (self w) /\
    (exists text, last (log w') = Some (Critical "Error" text)) /\
    forall distance ok,
      buffer_tool L distance ok w'
      = (Ok tt, {| self := self w'; heap := heap w';
                   log := log w' ++
                     [Critical "Error" "Please upload a shapefile first."] |}).
Proof.
  intros Hconn Hname Hread Hrows.
  assert (Hgeoms : geometries (imported g) = []).
  { unfold imported, geometries. destruct (gdf_crs g); cbn; rewrite Hrows;
      reflexivity. }
  assert (Hempty : frame_empty (imported g) = true).
  { unfold imported, frame_empty. destruct (gdf_crs g); cbn; rewrite Hrows;
      reflexivity. }
  unfold import_and_visualize_from_postgis. run. rewrite Hconn. run.
  rewrite (bool_decide_eq_true_2 _ Hname). cbn [negb orb]. run.
  rewrite Hread. run. rewrite heap_fresh_lookup. run.
  unfold imported in Hgeoms, Hempty |- *.
  destruct (gdf_crs g) as [crs|] eqn:Hcrs; run;
    rewrite heap_fresh_lookup; run; rewrite Hgeoms; cbn [map_res]; run;
    cbn [first]; run; do 2 eexists; (split; [reflexivity|]);
    cbn [self heap log gdf last_displayed_data last_displayed_type set_gdf];
    (split; [reflexivity|]); (split; [apply heap_fresh_lookup|]);
    (split; [reflexivity|]); (split; [reflexivity|]);
    (split; [eexists; apply last_snoc|]);
    intros distance ok; unfold buffer_tool; run;
    rewrite heap_fresh_lookup; run; rewrite Hempty; reflexivity.
Qed.

Lemma import_keeps_shapefile_path t ok w r w' :
  import_and_visualize_from_postgis L t ok w = (r, w') ->
  shapefile_path (self w') = shapefile_path (self w).
Proof.
  intros H. unfold import_and_visualize_from_postgis in H.
  branches H; injection H as <- <-; reflexivity.
Qed.

(** X22. The vector visualisations show the shapefile on disk, not the
    stored layer. The import does not touch [shapefile_path], so in a
    session where no shapefile was uploaded, both visualisations answer
    "No shapefile uploaded." after a PostGIS import, whatever it
    loaded. *)
Theorem visualize_after_import
    (w w1 : World) (table_name : string) (ok : bool) (r : res unit) :
  shapefile_path (self w) = None ->
  import_and_visualize_from_postgis L table_name ok w = (r, w1) ->
  visualize_shapefile L w1
  = (Ok tt, {| self := self w1; heap := heap w1;
               log := log w1 ++ [Critical "Error" "No shapefile uploaded."] |}) /\
  visualize_shapefile_on_gui L w1
  = (Ok tt, {| self := self w1; heap := heap w1;
               log := log w1 ++ [Critical "Error" "No shapefile uploaded."] |}).
Proof.
  intros Hpath H. apply import_keeps_shapefile_path in H.
  rewrite Hpath in H. unfold visualize_shapefile, visualize_shapefile_on_gui.
  run. rewrite H. split; reflexivity.
Qed.

Lemma valid_rows_valid (g : GeoDataFrame) :
  Forall (fun f => is_valid L (geometry f) = true) (gdf_rows (valid_rows L g)).
Proof.
  unfold valid_rows. cbn [gdf_rows]. apply Forall_forall. intros f Hf.
  apply list_elem_of_filter in Hf as [Hf _]. exact Hf.
Qed.

Lemma frame_not_empty (g : GeoDataFrame) :
  frame_empty g = false -> gdf_rows g <> [].
Proof. unfold frame_empty. destruct (gdf_rows g); [discriminate | discriminate]. Qed.

(** X23. [visualize_shapefile] reads the file at [shapefile_path] again
    and always returns. It either leaves the session as it was (the read
    or the reprojection failed, or no valid geometry remained) or
    displays one new layer, tagged "shapefile", that has at least one
    feature and only valid geometries; [self.gdf] is not consulted and
    does not change. *)
Theorem visualize_shapefile_displays_valid_features
    (w w' : World) (path : string) (r : res unit) :
  shapefile_path (self w) = Some path ->
  path <> "" ->
  visualize_shapefile L w = (r, w') ->
  r = Ok tt /\
  gdf (self w') = gdf (self w) /\
  (exists rest, log w' = log w ++ Called (CReadFile path) :: rest) /\
  ((self w' = self w /\ heap w' = heap w) \/
   exists g,
     heap w' = heap w ++ [g] /\
     last_displayed_data (self w') = Some (ObjFrame (length (heap w))) /\
     last_displayed_type (self w') = Some "shapefile" /\
     gdf_rows g <> [] /\
     Forall (fun f => is_valid L (geometry f) = true) (gdf_rows g)).
Proof.
  intros Hpath Hne H. unfold visualize_shapefile in H. run_in H.
  rewrite Hpath in H. cbn [default from_option id] in H.
  rewrite (bool_decide_eq_true_2 _ Hne) in H. run_in H.
  branches H; injection H as <- <-;
    repeat match goal with u : unit |- _ => destruct u end;
    cbn [self heap log gdf last_displayed_data last_displayed_type
         set_last_displayed_data set_last_displayed_type];
    (split; [reflexivity|]); (split; [reflexivity|]);
    (split; [rewrite <- ?app_assoc; eexists; reflexivity|]);
    first [ left; split; reflexivity
          | right; eexists; split; [reflexivity|];
            split; [reflexivity|]; split; [reflexivity|];
            split; [apply frame_not_empty; assumption | apply valid_rows_valid] ].
Qed.

(** X24. [visualize_shapefile] stores the artifact before it makes the
    map. When the centroid of a geographic layer with valid features
    cannot be taken, the error is reported and the DisplayedArtifact is
    already the new layer. *)
Theorem visualize_shapefile_stores_before_mapping
    (w : World) (path : string) (g : GeoDataFrame) (crs : CRS) (e : exn) :
  shapefile_path (self w) = Some path ->
  path <> "" ->
  gpd_read_file L path = Ok g ->
  gdf_crs g = Some crs ->
  is_geographic L crs = true ->
  frame_empty (valid_rows L g) = false ->
  union_centroid L (geometries (valid_rows L g)) = Raise e ->
  visualize_shapefile L w
  = (Ok tt,
     {| self := set_last_displayed_type (Some "shapefile")
                  (set_last_displayed_data (Some (ObjFrame (length (heap w))))
                     (self w));
        heap := heap w ++ [valid_rows L g];
        log := log w ++
          [Called (CReadFile path); Called CCentroid;
           Critical "Error" ("Error visualizing shapefile: " ++ exn_msg e)] |}).
Proof.
  intros Hpath Hne Hread Hcrs Hgeo Hrows Hcen. unfold visualize_shapefile. run.
  rewrite Hpath. cbn [default from_option id].
  rewrite (bool_decide_eq_true_2 _ Hne). run. rewrite Hread. run.
  rewrite Hcrs, Hgeo. run. rewrite Hrows. run. rewrite Hcen. run.
  rewrite <- ?app_assoc. reflexivity.
Qed.

(** X25. [visualize_shapefile_on_gui] plots first and stores after, with
    no validity filter: a read or a plot that fails is reported and the
    session is as it was; otherwise the layer displayed is the file as
    read, every feature of it. *)
Theorem visualize_shapefile_on_gui_outcomes (w : World) (path : string) :
  shapefile_path (self w) = Some path ->
  path <> "" ->
  visualize_shapefile_on_gui L w
  = match gpd_read_file L path with
    | Raise e =>
        (Ok tt, {| self := self w; heap := heap w;
                   log := log w ++
                     [Called (CReadFile path);
                      Critical "Error"
                        ("Error visualizing shapefile on GUI: " ++ exn_msg e)] |})
    | Ok g =>
        match matplotlib_render L (FrameFigure g "Shapefile Visualization") with
        | Raise e =>
            (Ok tt, {| self := self w; heap := heap w;
                       log := log w ++
                         [Called (CReadFile path);
                          Called (CRender (FrameFigure g "Shapefile Visualization"));
                          Critical "Error"
                            ("Error visualizing shapefile on GUI: " ++ exn_msg e)] |})
        | Ok _ =>
            (Ok tt,
             {| self := set_last_displayed_type (Some "shapefile")
                          (set_last_displayed_data
                             (Some (ObjFrame (length (heap w)))) (self w));
                heap := heap w ++ [g];
                log := log w ++
                  [Called (CReadFile path);
                   Called (CRender (FrameFigure g "Shapefile Visualization"))] |})
        end
    end.
Proof.
  intros Hpath Hne. unfold visualize_shapefile_on_gui. run.
  rewrite Hpath. cbn [default from_option id].
  rewrite (bool_decide_eq_true_2 _ Hne). run.
  destruct (gpd_read_file L path) as [g|e]; run;
    [destruct (matplotlib_render L (FrameFigure g "Shapefile Visualization"))
       as [[]|e]; run|];
    rewrite <- ?app_assoc; reflexivity.
Qed.

End Vectors.

(** *** The theorems above at sample sessions *)

Lemma coherent_fresh : coherent Demo.fresh.
Proof. reflexivity. Qed.

Lemma coherent_displayed : coherent Demo.displayed.
Proof. split; [reflexivity | discriminate]. Qed.

Lemma wf_displayed : wf Demo.displayed.
Proof. split; intros r H; [injection H as <-; cbn; lia | discriminate H]. Qed.

Lemma upload_raster_success_witness :
  exists w',
    upload_raster (Demo.lib true) "scene.tif" Demo.fresh = (Ok tt, w') /\
    raster_data (self w') = Some Demo.raster.
Proof.
  destruct (upload_raster_success (Demo.lib true) Demo.fresh "scene.tif" Demo.raster)
    as (w' & Hrun & Hrd & _); [discriminate | reflexivity |].
  exists w'. auto.
Defined.

Lemma upload_shapefile_outcomes_witness :
  upload_shapefile (Demo.lib true) "parcels.shp" Demo.fresh
  = (Ok tt,
     {| self := set_shapefile_path (Some "parcels.shp")
                  (set_gdf (Some 0%nat) init);
        heap := [Demo.frame];
        log := [Asked "Select Shapefile"; Called (CReadFile "parcels.shp");
                Information "Success" "Shapefile uploaded successfully!"] |}).
Proof.
  apply (upload_shapefile_outcomes (Demo.lib true) Demo.fresh "parcels.shp").
  discriminate.
Defined.

Lemma calculate_index_displays_normalized_difference_witness :
  exists out w',
    calculate_index (Demo.lib true) "NDVI" 1 2 1 1 Demo.loaded = (Ok tt, w') /\
    last_displayed_data (self w') = Some (ObjArray (FloatArr float64 out)) /\
    has_shape 2 2 out.
Proof.
  assert (Hs : has_shape 2 2 (astype_float Demo.band)).
  { split; [reflexivity | repeat constructor]. }
  destruct (calculate_index_displays_normalized_difference (Demo.lib true)
              Demo.loaded Demo.raster "NDVI" 1 2 1 1 1 2 Demo.band Demo.band 2 2)
    as (out & w' & Hrun & Hdata & _ & _ & _ & Hshape & _);
    try reflexivity; try exact Hs.
  - left. reflexivity.
  - exists out, w'. auto.
Defined.

Lemma calculate_index_uses_two_bands_witness :
  calculate_index (Demo.lib true) "NDVI" 1 2 3 4 Demo.loaded
  = calculate_index (Demo.lib true) "NDVI" 1 2 9 9 Demo.loaded.
Proof.
  apply (calculate_index_uses_two_bands (Demo.lib true) "NDVI" 1 2 3 4 1 2 9 9).
  reflexivity.
Defined.

Lemma calculate_index_unknown_type_witness :
  calculate_index (Demo.lib true) "EVI" 1 2 1 1 Demo.loaded
  = (Ok tt,
     {| self := self Demo.loaded; heap := heap Demo.loaded;
        log := [Asked "Red Band"; Asked "NIR Band"; Asked "Green Band";
                Asked "SWIR Band";
                Critical "Error"
                  "Error calculating EVI: local variable 'index_result' referenced before assignment"] |}).
Proof.
  apply (calculate_index_unknown_type (Demo.lib true) Demo.loaded Demo.raster
           "EVI" 1 2 1 1); [reflexivity|].
  intros [H|[H|[H|[]]]]; discriminate H.
Defined.

Lemma display_raster_band_witness :
  exists band w',
    display_raster (Demo.lib true) 2 true Demo.loaded = (Ok tt, w') /\
    last_displayed_data (self w') = Some (ObjArray band).
Proof.
  destruct (display_raster_band (Demo.lib true) Demo.loaded Demo.raster 2 eq_refl)
    as [Hin _].
  destruct Hin as (band & w' & _ & Hrun & Hdata & _).
  - unfold band_in_range. simpl. lia.
  - exists band, w'. auto.
Defined.

Lemma unhandled_exceptions_witness :
  self Demo.fresh = self Demo.fresh /\ heap Demo.fresh = heap Demo.fresh /\
  ((exists d ok, BufferTool 5 true = BufferTool d ok /\ gdf (self Demo.fresh) = None /\
                 AttributeError = AttributeError) \/
   (BufferTool 5 true = ClipRaster /\ raster_data (self Demo.fresh) <> None /\
    gdf (self Demo.fresh) <> None /\ AttributeError = ValueError) \/
   (exists f, BufferTool 5 true = UploadRaster f /\
              rasterio_open (Demo.lib true) f
              = Raise (Exn AttributeError "'NoneType' object has no attribute 'empty'") /\
              AttributeError <> RasterioIOError)).
Proof.
  apply (unhandled_exceptions (Demo.lib true) (BufferTool 5 true) Demo.fresh
           Demo.fresh
           (Exn AttributeError "'NoneType' object has no attribute 'empty'"));
    [apply wf_fresh | reflexivity].
Defined.


Lemma buffer_tool_stops_witness :
  buffer_tool (Demo.lib true) 5 false Demo.loaded
  = (Ok tt,
     {| self := self Demo.loaded; heap := heap Demo.loaded;
        log := log Demo.loaded ++
                 [Asked "Buffer Distance";
                  Critical "Error" "Invalid buffer distance."] |}).
Proof.
  apply (buffer_tool_stops (Demo.lib true) Demo.loaded 0%nat Demo.frame 5%float);
    reflexivity.
Defined.

Lemma export_changes_nothing_witness :
  (export_displayed_data (Demo.lib true) "out.tif" Demo.displayed).1 = Ok tt /\
  self (export_displayed_data (Demo.lib true) "out.tif" Demo.displayed).2
  = self Demo.displayed.
Proof.
  destruct (export_changes_nothing (Demo.lib true) "out.tif" Demo.displayed
              (export_displayed_data (Demo.lib true) "out.tif" Demo.displayed).2
              (export_displayed_data (Demo.lib true) "out.tif" Demo.displayed).1)
    as (Hr & Hself & _); [reflexivity|].
  split; assumption.
Defined.

Lemma export_cancelled_witness :
  export_displayed_data (Demo.lib true) "" Demo.displayed
  = (Ok tt,
     {| self := self Demo.displayed; heap := heap Demo.displayed;
        log := log Demo.displayed ++
                 [Asked "Save File";
                  Information "Canceled" "Save operation canceled."] |}).
Proof.
  apply (export_cancelled (Demo.lib true) Demo.displayed (ObjArray Demo.band)).
  reflexivity.
Defined.

Lemma export_writes_the_artifact_witness :
  exists c rest,
    export_displayed_data (Demo.lib true) "out.tif" Demo.displayed
    = (Ok tt, {| self := self Demo.displayed; heap := heap Demo.displayed;
                 log := log Demo.displayed ++ Asked "Save File" :: Called c :: rest |}) /\
    c = CCreate "out.tif" (export_profile Demo.band Demo.raster).
Proof.
  destruct (export_writes_the_artifact (Demo.lib true) Demo.displayed
              (ObjArray Demo.band) "out.tif" wf_displayed coherent_displayed)
    as (c & rest & Hrun & rd & Hrd & Hc); [reflexivity | discriminate |].
  exists c, rest. split; [exact Hrun|]. injection Hrd as <-. exact Hc.
Defined.


Lemma sessions_stay_coherent_witness :
  coherent (event_loop (Demo.lib true)
              [UploadRaster "scene.tif"; CalculateIndex "NDVI" 1 2 1 1;
               UploadShapefile "parcels.shp"; BufferTool 5 true]
              Demo.fresh).2.
Proof.
  apply (sessions_stay_coherent (Demo.lib true)). exact coherent_fresh.
Defined.

Lemma import_rejects_empty_table_name_witness :
  import_and_visualize_from_postgis (Demo.lib true) "" true Samples.connected
  = (Ok tt,
     {| self := self Samples.connected; heap := heap Samples.connected;
        log := log Samples.connected ++
                 [Asked "Table Name"; Critical "Error" "Invalid table name."] |}).
Proof.
  apply (import_rejects_empty_table_name (Demo.lib true) Samples.connected
           Demo.connection "" true); [reflexivity | left; reflexivity].
Defined.

Lemma import_replaces_the_stored_layer_witness :
  exists r',
    gdf (self (import_and_visualize_from_postgis (Demo.lib true) "parcels" true
                 Samples.connected).2) = Some r' /\
    heap (import_and_visualize_from_postgis (Demo.lib true) "parcels" true
            Samples.connected).2 !! r' = Some Demo.frame.
Proof.
  destruct (import_replaces_the_stored_layer (Demo.lib true) Samples.connected
              Demo.connection "parcels" Demo.frame
              (import_and_visualize_from_postgis (Demo.lib true) "parcels" true
                 Samples.connected).1
              (import_and_visualize_from_postgis (Demo.lib true) "parcels" true
                 Samples.connected).2)
    as (_ & r' & Hgdf & Hobj & _); try reflexivity; [discriminate|].
  exists r'. split; [exact Hgdf | exact Hobj].
Defined.

Lemma import_of_empty_table_witness :
  exists w' r',
    import_and_visualize_from_postgis Samples.bare "parcels" true Samples.connected
    = (Ok tt, w') /\
    gdf (self w') = Some r' /\
    heap w' !! r' = Some (set_crs Samples.empty_table "EPSG:4326").
Proof.
  destruct (import_of_empty_table Samples.bare Samples.connected Demo.connection
              "parcels" Samples.empty_table)
    as (w' & r' & Hrun & Hgdf & Hobj & _); try reflexivity; [discriminate|].
  exists w', r'. auto.
Defined.

Lemma visualize_after_import_witness :
  let imported_session :=
    (import_and_visualize_from_postgis (Demo.lib true) "parcels" true
       Samples.connected_only).2 in
  gdf (self imported_session) = Some 0%nat /\
  heap imported_session !! 0%nat = Some Demo.frame /\
  last_displayed_data (self imported_session) = Some (ObjFrame 0%nat) /\
  visualize_shapefile (Demo.lib true) imported_session
  = (Ok tt,
     {| self := self imported_session; heap := heap imported_session;
        log := log imported_session ++
                 [Critical "Error" "No shapefile uploaded."] |}) /\
  visualize_shapefile_on_gui (Demo.lib true) imported_session
  = (Ok tt,
     {| self := self imported_session; heap := heap imported_session;
        log := log imported_session ++
                 [Critical "Error" "No shapefile uploaded."] |}).
Proof.
  cbv zeta. split; [reflexivity|]. split; [reflexivity|]. split; [reflexivity|].
  apply (visualize_after_import (Demo.lib true) Samples.connected_only
           (import_and_visualize_from_postgis (Demo.lib true) "parcels" true
              Samples.connected_only).2
           "parcels" true
           (import_and_visualize_from_postgis (Demo.lib true) "parcels" true
              Samples.connected_only).1); reflexivity.
Defined.

Lemma visualize_shapefile_displays_valid_features_witness :
  (visualize_shapefile (Demo.lib true) Demo.loaded).1 = Ok tt /\
  gdf (self (visualize_shapefile (Demo.lib true) Demo.loaded).2)
  = gdf (self Demo.loaded).
Proof.
  destruct (visualize_shapefile_displays_valid_features (Demo.lib true)
              Demo.loaded (visualize_shapefile (Demo.lib true) Demo.loaded).2
              "parcels.shp" (visualize_shapefile (Demo.lib true) Demo.loaded).1)
    as (Hr & Hgdf & _); try reflexivity; [discriminate|].
  split; assumption.
Defined.

Lemma visualize_shapefile_stores_before_mapping_witness :
  exists w',
    visualize_shapefile Samples.bare Demo.loaded = (Ok tt, w') /\
    last_displayed_data (self w') = Some (ObjFrame 1%nat) /\
    last (log w')
    = Some (Critical "Error" "Error visualizing shapefile: no centroid").
Proof.
  eexists. split.
  - apply (visualize_shapefile_stores_before_mapping Samples.bare Demo.loaded
             "parcels.shp" Demo.frame "EPSG:4326"
             (Exn ValueError "no centroid")); try reflexivity. discriminate.
  - split; reflexivity.
Defined.

Lemma visualize_shapefile_on_gui_outcomes_witness :
  visualize_shapefile_on_gui (Demo.lib true) Demo.loaded
  = (Ok tt,
     {| self := set_last_displayed_type (Some "shapefile")
                  (set_last_displayed_data (Some (ObjFrame 1%nat))
                     (self Demo.loaded));
        heap := [Demo.frame; Demo.frame];
        log := [Called (CReadFile "parcels.shp");
                Called (CRender (FrameFigure Demo.frame "Shapefile Visualization"))] |}).
Proof.
  apply (visualize_shapefile_on_gui_outcomes (Demo.lib true) Demo.loaded
           "parcels.shp"); [reflexivity | discriminate].
Defined.

End SessionFacts.
